(** * Verification of the environmental-value synthesis engine

    Shallow embedding of [envpredictor/predictor.py] (class
    [HighAccuracyEnvironmentalPredictor]) and [envpredictor/region.py].

    Number model.  Python floats are idealised:
    - coordinates are rationals ([Q]): the rule cascade only compares them
      with decimal literals, so the classifier computes;
    - synthesized values are real numbers ([R]): they go through [exp],
      [sin], [cos] and [sqrt].  Rounding of binary floating point is not
      modelled. *)

From Stdlib Require Import Reals QArith Qabs Qreals Lra Lia List String Ascii ZArith Bool.
From Stdlib Require Lqa Qround.
Import ListNotations.

(* ================================================================== *)
(** * region.py *)

Inductive RegionType : Type :=
| OCEAN | COASTAL | FOREST_TROPICAL | FOREST_TEMPERATE | GRASSLAND
| DESERT | TUNDRA | URBAN | MOUNTAIN | AGRICULTURAL.

(** The value of each member of the Python [Enum]. *)
Definition RegionType_value (r : RegionType) : Z :=
  match r with
  | OCEAN => 1 | COASTAL => 2 | FOREST_TROPICAL => 3 | FOREST_TEMPERATE => 4
  | GRASSLAND => 5 | DESERT => 6 | TUNDRA => 7 | URBAN => 8
  | MOUNTAIN => 9 | AGRICULTURAL => 10
  end%Z.

Definition RegionType_eqb (a b : RegionType) : bool :=
  Z.eqb (RegionType_value a) (RegionType_value b).

(* ================================================================== *)
(** * The rule cascade of [_determine_region_type] *)

Module Cascade.

Local Open Scope Q_scope.

(** Python's [x < y] on coordinates. *)
Definition ltb (x y : Q) : bool := negb (Qle_bool y x).

(** Python's chained comparison [a < x < b]. *)
Definition between (a x b : Q) : bool := ltb a x && ltb x b.

Definition major_cities : list (Q * Q) :=
[ (40.7, -74.0); (51.5, -0.1); (35.7, 139.7); (19.1, 72.9);
  (34.1, -118.2); (41.9, 12.5); (-23.5, -46.6); (30.0, 31.2);
  (39.9, 116.4); (55.8, 37.6) ].

(** The body of the [for city_lat, city_lon in major_cities] loop: the loop
  returns at the first city whose box contains the point. *)
Definition in_city_box (lat lon : Q) (city : Q * Q) : bool :=
let '(city_lat, city_lon) := city in
ltb (Qabs (lat - city_lat)) 1.0 && ltb (Qabs (lon - city_lon)) 1.5.

Definition ocean_rule (lat lon : Q) : bool :=
ltb (Qabs lat) 30 &&
(between 0 lon 20 || between 60 lon 100 || between 140 lon 180 ||
 between (-140) lon (-60) || between (-20) lon 0).

Definition desert_rule (lat lon : Q) : bool :=
(between 15 lat 35 && between (-120) lon (-80)) ||
(between 15 lat 30 && between (-10) lon 50) ||
(between 20 lat 35 && between 50 lon 80) ||
(between (-30) lat (-15) && between 115 lon 150) ||
(between (-30) lat (-15) && between (-80) lon (-60)).

Definition forest_tropical_rule (lat lon : Q) : bool :=
(between (-10) lat 10 && between (-80) lon (-50)) ||
(between (-10) lat 10 && between 10 lon 40) ||
(between (-10) lat 10 && between 90 lon 150).

Definition forest_temperate_rule (lat lon : Q) : bool :=
(between 40 lat 60 && between (-10) lon 30) ||
(between 40 lat 60 && between (-130) lon (-70)) ||
(between 30 lat 50 && between 120 lon 150).

Definition tundra_rule (lat lon : Q) : bool :=
ltb 60 lat || ltb lat (-60).

Definition mountain_rule (lat lon : Q) : bool :=
(between 35 lat 45 && between (-120) lon (-105)) ||
(between (-35) lat (-20) && between (-75) lon (-60)) ||
(between 30 lat 40 && between 70 lon 90) ||
(between 45 lat 50 && between 5 lon 15).

Definition coastal_rule (lat lon : Q) : bool :=
ltb (Qabs lon) 10 || ltb 170 (Qabs lon) ||
(ltb (Qabs lat) 30 && (ltb (Qabs lon) 100 && ltb 80 (Qabs lon))).

Definition urban_rule (lat lon : Q) : bool :=
existsb (in_city_box lat lon) major_cities.

Definition agricultural_rule (lat lon : Q) : bool :=
(between 25 lat 50 && between (-105) lon (-75)) ||
(between 45 lat 55 && between (-5) lon 30) ||
(between (-40) lat (-20) && between (-65) lon (-50)) ||
(between 20 lat 40 && between 70 lon 100).

End Cascade.

(** [_determine_region_type]: the [if ...: return ...] statements in source
    order; the first test that holds decides, [GRASSLAND] is the fall-through. *)
Definition _determine_region_type (lat lon : Q) : RegionType :=
  if Cascade.ocean_rule lat lon then OCEAN
  else if Cascade.desert_rule lat lon then DESERT
  else if Cascade.forest_tropical_rule lat lon then FOREST_TROPICAL
  else if Cascade.forest_temperate_rule lat lon then FOREST_TEMPERATE
  else if Cascade.tundra_rule lat lon then TUNDRA
  else if Cascade.mountain_rule lat lon then MOUNTAIN
  else if Cascade.coastal_rule lat lon then COASTAL
  else if Cascade.urban_rule lat lon then URBAN
  else if Cascade.agricultural_rule lat lon then AGRICULTURAL
  else GRASSLAND.

(* ================================================================== *)
(** * Python dictionaries used as lookup tables *)

Section Dict.
Context {K V : Type} (eqb : K -> K -> bool).

(** [d[k]] on a dict literal: the entry for [k], if there is one. *)
Fixpoint dict_lookup (d : list (K * V)) (k : K) : option V :=
  match d with
  | [] => None
  | (k', v) :: rest => if eqb k' k then Some v else dict_lookup rest k
  end.

(** [d.get(k, default)]. *)
Definition dict_get (d : list (K * V)) (k : K) (default : V) : V :=
  match dict_lookup d k with
  | Some v => v
  | None => default
  end.
End Dict.

(** The nine entries of a [regional_base_values] row, of [base_values.copy()]
    and of [adjusted_values]. *)
Module Values.
Record t : Type := mk {
  temperature : R;
  humidity : R;
  pressure : R;
  gas_resistance : R;
  CO2 : R;
  VOC : R;
  PM1_0 : R;
  PM2_5 : R;
  PM10 : R
}.
End Values.

(** A row of decimal literals. *)
Definition base_row (t h p g c v p1 p25 p10 : Q) : Values.t :=
  Values.mk (Q2R t) (Q2R h) (Q2R p) (Q2R g) (Q2R c) (Q2R v)
            (Q2R p1) (Q2R p25) (Q2R p10).

(** [{label: {'temp_shift': {region: x}, 'humidity_shift': ..., 'pollution_factor': ...}}] *)
Definition RegionTable : Type := list (RegionType * Q).
Definition ParamTable : Type := list (string * list (string * RegionTable)).

Local Open Scope string_scope.
Local Open Scope Q_scope.

Definition regional_base_values : list (RegionType * Values.t) :=
  [ (OCEAN, base_row 18.0 85.0 1013.25 80000.0 410.0 80.0 2.0 3.0 4.0);
    (COASTAL, base_row 22.0 75.0 1013.0 60000.0 420.0 120.0 5.0 8.0 10.0);
    (FOREST_TROPICAL, base_row 26.0 85.0 1012.0 50000.0 430.0 200.0 4.0 6.0 8.0);
    (FOREST_TEMPERATE, base_row 18.0 70.0 1013.0 55000.0 425.0 150.0 3.0 5.0 7.0);
    (GRASSLAND, base_row 20.0 60.0 1013.0 50000.0 420.0 100.0 4.0 6.0 9.0);
    (DESERT, base_row 30.0 20.0 1012.0 30000.0 415.0 50.0 10.0 25.0 50.0);
    (TUNDRA, base_row (-5.0) 70.0 1015.0 70000.0 410.0 30.0 2.0 3.0 4.0);
    (URBAN, base_row 24.0 65.0 1012.0 40000.0 450.0 300.0 10.0 20.0 30.0);
    (MOUNTAIN, base_row 12.0 60.0 900.0 60000.0 415.0 80.0 3.0 5.0 7.0);
    (AGRICULTURAL, base_row 22.0 65.0 1013.0 45000.0 435.0 180.0 6.0 12.0 15.0) ].

Definition seasonal_params : ParamTable :=
  [
    ("summer",
     [
       ("temp_shift",
        [ (OCEAN, 2.0); (COASTAL, 4.0); (FOREST_TROPICAL, 1.0); (FOREST_TEMPERATE, 6.0); (GRASSLAND, 8.0);
          (DESERT, 12.0); (TUNDRA, 10.0); (URBAN, 5.0); (MOUNTAIN, 4.0); (AGRICULTURAL, 6.0) ]);
       ("humidity_shift",
        [ (OCEAN, 5.0); (COASTAL, 10.0); (FOREST_TROPICAL, 5.0); (FOREST_TEMPERATE, 15.0); (GRASSLAND, -10.0);
          (DESERT, -5.0); (TUNDRA, 20.0); (URBAN, 5.0); (MOUNTAIN, 5.0); (AGRICULTURAL, 8.0) ]);
       ("pollution_factor",
        [ (OCEAN, 1.1); (COASTAL, 1.2); (FOREST_TROPICAL, 1.1); (FOREST_TEMPERATE, 1.1); (GRASSLAND, 1.3);
          (DESERT, 1.5); (TUNDRA, 1.0); (URBAN, 1.4); (MOUNTAIN, 1.1); (AGRICULTURAL, 1.3) ]) ]);
    ("winter",
     [
       ("temp_shift",
        [ (OCEAN, -1.0); (COASTAL, -3.0); (FOREST_TROPICAL, 0.0); (FOREST_TEMPERATE, -8.0); (GRASSLAND, -10.0);
          (DESERT, -5.0); (TUNDRA, -25.0); (URBAN, -4.0); (MOUNTAIN, -6.0); (AGRICULTURAL, -5.0) ]);
       ("humidity_shift",
        [ (OCEAN, 0.0); (COASTAL, 5.0); (FOREST_TROPICAL, 0.0); (FOREST_TEMPERATE, -5.0); (GRASSLAND, -5.0);
          (DESERT, -3.0); (TUNDRA, -10.0); (URBAN, -5.0); (MOUNTAIN, -5.0); (AGRICULTURAL, -3.0) ]);
       ("pollution_factor",
        [ (OCEAN, 1.0); (COASTAL, 1.1); (FOREST_TROPICAL, 1.0); (FOREST_TEMPERATE, 1.2); (GRASSLAND, 1.4);
          (DESERT, 1.2); (TUNDRA, 1.5); (URBAN, 1.6); (MOUNTAIN, 1.3); (AGRICULTURAL, 1.4) ]) ]);
    ("spring",
     [
       ("temp_shift",
        [ (OCEAN, 1.0); (COASTAL, 2.0); (FOREST_TROPICAL, 0.5); (FOREST_TEMPERATE, 3.0); (GRASSLAND, 4.0);
          (DESERT, 6.0); (TUNDRA, 5.0); (URBAN, 2.0); (MOUNTAIN, 2.0); (AGRICULTURAL, 3.0) ]);
       ("humidity_shift",
        [ (OCEAN, 2.0); (COASTAL, 8.0); (FOREST_TROPICAL, 3.0); (FOREST_TEMPERATE, 10.0); (GRASSLAND, 5.0);
          (DESERT, 2.0); (TUNDRA, 15.0); (URBAN, 3.0); (MOUNTAIN, 3.0); (AGRICULTURAL, 5.0) ]);
       ("pollution_factor",
        [ (OCEAN, 1.0); (COASTAL, 1.1); (FOREST_TROPICAL, 1.0); (FOREST_TEMPERATE, 1.1); (GRASSLAND, 1.2);
          (DESERT, 1.3); (TUNDRA, 1.1); (URBAN, 1.3); (MOUNTAIN, 1.1); (AGRICULTURAL, 1.2) ]) ]);
    ("fall",
     [
       ("temp_shift",
        [ (OCEAN, 0.5); (COASTAL, 1.0); (FOREST_TROPICAL, 0.5); (FOREST_TEMPERATE, 2.0); (GRASSLAND, 3.0);
          (DESERT, 4.0); (TUNDRA, 2.0); (URBAN, 1.0); (MOUNTAIN, 1.0); (AGRICULTURAL, 2.0) ]);
       ("humidity_shift",
        [ (OCEAN, 1.0); (COASTAL, 5.0); (FOREST_TROPICAL, 2.0); (FOREST_TEMPERATE, 8.0); (GRASSLAND, 3.0);
          (DESERT, 1.0); (TUNDRA, 10.0); (URBAN, 2.0); (MOUNTAIN, 2.0); (AGRICULTURAL, 3.0) ]);
       ("pollution_factor",
        [ (OCEAN, 1.0); (COASTAL, 1.1); (FOREST_TROPICAL, 1.0); (FOREST_TEMPERATE, 1.2); (GRASSLAND, 1.3);
          (DESERT, 1.4); (TUNDRA, 1.2); (URBAN, 1.4); (MOUNTAIN, 1.2); (AGRICULTURAL, 1.3) ]) ]) ].

Definition diurnal_params : ParamTable :=
  [
    ("morning",
     [
       ("temp_shift",
        [ (OCEAN, -0.5); (COASTAL, -1.0); (FOREST_TROPICAL, -0.5); (FOREST_TEMPERATE, -1.5); (GRASSLAND, -2.0);
          (DESERT, -3.0); (TUNDRA, -1.0); (URBAN, -1.0); (MOUNTAIN, -1.5); (AGRICULTURAL, -1.5) ]);
       ("humidity_shift",
        [ (OCEAN, 5.0); (COASTAL, 10.0); (FOREST_TROPICAL, 5.0); (FOREST_TEMPERATE, 10.0); (GRASSLAND, 15.0);
          (DESERT, 10.0); (TUNDRA, 5.0); (URBAN, 8.0); (MOUNTAIN, 10.0); (AGRICULTURAL, 12.0) ]);
       ("pollution_factor",
        [ (OCEAN, 1.0); (COASTAL, 1.1); (FOREST_TROPICAL, 1.0); (FOREST_TEMPERATE, 1.1); (GRASSLAND, 1.2);
          (DESERT, 1.3); (TUNDRA, 1.0); (URBAN, 1.3); (MOUNTAIN, 1.1); (AGRICULTURAL, 1.2) ]) ]);
    ("afternoon",
     [
       ("temp_shift",
        [ (OCEAN, 1.0); (COASTAL, 3.0); (FOREST_TROPICAL, 2.0); (FOREST_TEMPERATE, 4.0); (GRASSLAND, 6.0);
          (DESERT, 10.0); (TUNDRA, 3.0); (URBAN, 4.0); (MOUNTAIN, 3.0); (AGRICULTURAL, 5.0) ]);
       ("humidity_shift",
        [ (OCEAN, -5.0); (COASTAL, -10.0); (FOREST_TROPICAL, -5.0); (FOREST_TEMPERATE, -10.0); (GRASSLAND, -15.0);
          (DESERT, -5.0); (TUNDRA, -5.0); (URBAN, -10.0); (MOUNTAIN, -10.0); (AGRICULTURAL, -12.0) ]);
       ("pollution_factor",
        [ (OCEAN, 1.0); (COASTAL, 1.0); (FOREST_TROPICAL, 1.0); (FOREST_TEMPERATE, 1.0); (GRASSLAND, 1.1);
          (DESERT, 1.2); (TUNDRA, 1.0); (URBAN, 1.2); (MOUNTAIN, 1.0); (AGRICULTURAL, 1.1) ]) ]);
    ("evening",
     [
       ("temp_shift",
        [ (OCEAN, 0.5); (COASTAL, 1.0); (FOREST_TROPICAL, 0.5); (FOREST_TEMPERATE, 1.0); (GRASSLAND, 2.0);
          (DESERT, 3.0); (TUNDRA, 1.0); (URBAN, 1.0); (MOUNTAIN, 1.0); (AGRICULTURAL, 1.5) ]);
       ("humidity_shift",
        [ (OCEAN, 3.0); (COASTAL, 8.0); (FOREST_TROPICAL, 3.0); (FOREST_TEMPERATE, 8.0); (GRASSLAND, 10.0);
          (DESERT, 5.0); (TUNDRA, 3.0); (URBAN, 5.0); (MOUNTAIN, 5.0); (AGRICULTURAL, 8.0) ]);
       ("pollution_factor",
        [ (OCEAN, 1.1); (COASTAL, 1.2); (FOREST_TROPICAL, 1.1); (FOREST_TEMPERATE, 1.2); (GRASSLAND, 1.3);
          (DESERT, 1.4); (TUNDRA, 1.1); (URBAN, 1.4); (MOUNTAIN, 1.2); (AGRICULTURAL, 1.3) ]) ]);
    ("night",
     [
       ("temp_shift",
        [ (OCEAN, -1.0); (COASTAL, -2.0); (FOREST_TROPICAL, -1.0); (FOREST_TEMPERATE, -3.0); (GRASSLAND, -4.0);
          (DESERT, -8.0); (TUNDRA, -2.0); (URBAN, -2.0); (MOUNTAIN, -3.0); (AGRICULTURAL, -3.0) ]);
       ("humidity_shift",
        [ (OCEAN, 8.0); (COASTAL, 15.0); (FOREST_TROPICAL, 8.0); (FOREST_TEMPERATE, 15.0); (GRASSLAND, 20.0);
          (DESERT, 15.0); (TUNDRA, 10.0); (URBAN, 12.0); (MOUNTAIN, 15.0); (AGRICULTURAL, 18.0) ]);
       ("pollution_factor",
        [ (OCEAN, 0.9); (COASTAL, 0.9); (FOREST_TROPICAL, 0.9); (FOREST_TEMPERATE, 0.9); (GRASSLAND, 0.9);
          (DESERT, 0.8); (TUNDRA, 0.9); (URBAN, 1.0); (MOUNTAIN, 0.9); (AGRICULTURAL, 0.9) ]) ]) ].

(** [self.calibration_factors]: [(CO2, VOC, PM)] for each area type. *)
Definition calibration_factors : list (string * list (string * Q)) :=
  [ ("urban", [ ("CO2", 1.1); ("VOC", 1.2); ("PM", 1.3) ]);
    ("rural", [ ("CO2", 1.0); ("VOC", 1.0); ("PM", 1.0) ]) ].

Local Close Scope Q_scope.

(* ================================================================== *)
(** * Exceptions, the random generator and the engine monad *)

(** The exception classes the [except] clauses of [predict] tell apart. *)
Inductive Exception : Type :=
| ValueError (msg : string)
| KeyError (msg : string)
| OtherException (msg : string).

(** [str(e)]. *)
Definition str (e : Exception) : string :=
  match e with
  | ValueError m | KeyError m | OtherException m => m
  end.

Inductive Outcome (A : Type) : Type :=
| Returns (a : A)
| Raises (e : Exception).
Arguments Returns {A} a.
Arguments Raises {A} e.

(** State of the process-level generator of module [random]: the values the
    coming calls of [random.random()] return. *)
Definition Rng : Type := nat -> R.

(** Code that only draws random numbers. *)
Definition Rand (A : Type) : Type := Rng -> A * Rng.

(** Code that draws random numbers and may raise. *)
Definition Eng (A : Type) : Type := Rng -> Outcome A * Rng.

Definition rand_ret {A} (a : A) : Rand A := fun g => (a, g).
Definition rand_bind {A B} (m : Rand A) (k : A -> Rand B) : Rand B :=
  fun g => let '(a, g') := m g in k a g'.

Definition ret {A} (a : A) : Eng A := fun g => (Returns a, g).
Definition raise {A} (e : Exception) : Eng A := fun g => (Raises e, g).
Definition bind {A B} (m : Eng A) (k : A -> Eng B) : Eng B :=
  fun g =>
    match m g with
    | (Returns a, g') => k a g'
    | (Raises e, g') => (Raises e, g')
    end.
Definition lift_outcome {A} (o : Outcome A) : Eng A := fun g => (o, g).
Definition lift_rand {A} (m : Rand A) : Eng A :=
  fun g => let '(a, g') := m g in (Returns a, g').

(** [try: body except ValueError as e: hv(e) except Exception as e: he(e)];
    both handlers of [predict] are plain [return] statements. *)
Definition try_except {A} (body : Eng A)
    (on_value_error on_exception : Exception -> A) : Eng A :=
  fun g =>
    match body g with
    | (Returns a, g') => (Returns a, g')
    | (Raises (ValueError m), g') => (Returns (on_value_error (ValueError m)), g')
    | (Raises e, g') => (Returns (on_exception e), g')
    end.

Declare Scope eng_scope.
Delimit Scope eng_scope with eng.
Notation "x <- m ;; k" := (bind m (fun x => k))
  (at level 61, m at next level, right associativity) : eng_scope.
Declare Scope rand_scope.
Delimit Scope rand_scope with rand.
Notation "x <~ m ;; k" := (rand_bind m (fun x => k))
  (at level 61, m at next level, right associativity) : rand_scope.

(** [d[k]]: a missing key raises [KeyError]. *)
Definition dict_index {K V} (eqb : K -> K -> bool) (d : list (K * V)) (k : K)
    (repr : string) : Outcome V :=
  match dict_lookup eqb d k with
  | Some v => Returns v
  | None => Raises (KeyError repr)
  end.

(** [random.random()] and [random.uniform(a, b)], which CPython computes as
    [a + (b - a) * self.random()]. *)
Definition random_random : Rand R :=
  fun g => (g 0%nat, fun n => g (S n)).

Definition random_uniform (a b : R) : Rand R :=
  (r <~ random_random ;; rand_ret (a + (b - a) * r)%R)%rand.

(** [random.uniform] patched to return 0 at every call. *)
Definition uniform_mock0 (a b : R) : Rand R := rand_ret 0%R.

(* ================================================================== *)
(** * Timestamps *)

Module Datetime.
Record t : Type := mk {
  year : Z; month : Z; day : Z; hour : Z; minute : Z
}.

Local Open Scope Z_scope.

Definition is_leap (y : Z) : bool :=
  ((y mod 4 =? 0) && negb (y mod 100 =? 0)) || (y mod 400 =? 0).

Definition days_before_month (y m : Z) : Z :=
  nth (Z.to_nat (m - 1)) [0; 31; 59; 90; 120; 151; 181; 212; 243; 273; 304; 334] 0
  + (if (2 <? m) && is_leap y then 1 else 0).

(** [dt.timetuple().tm_yday]: 1 for the first of January. *)
Definition tm_yday (dt : t) : Z := days_before_month (year dt) (month dt) + day dt.
End Datetime.

Module Features.
Record t : Type := mk {
  year_progress : R;
  seasonal_sin : R;
  seasonal_cos : R;
  diurnal_sin : R;
  diurnal_cos : R;
  season : string;
  time_of_day : string;
  hour : Z;
  month : Z
}.
End Features.

Definition _datetime_to_features (dt : Datetime.t) : Features.t :=
  let year_progress := (IZR (Datetime.tm_yday dt - 1) / 365.0)%R in
  let seasonal_sin := sin (2 * PI * year_progress) in
  let seasonal_cos := cos (2 * PI * year_progress) in
  let diurnal_progress :=
    (IZR (Datetime.hour dt * 60 + Datetime.minute dt) / IZR (24 * 60))%R in
  let diurnal_sin := sin (2 * PI * diurnal_progress) in
  let diurnal_cos := cos (2 * PI * diurnal_progress) in
  let month := Datetime.month dt in
  let season :=
    if ((3 <=? month) && (month <=? 5))%Z then "spring"
    else if ((6 <=? month) && (month <=? 8))%Z then "summer"
    else if ((9 <=? month) && (month <=? 11))%Z then "fall"
    else "winter" in
  let hour := Datetime.hour dt in
  let time_of_day :=
    if ((5 <=? hour) && (hour <? 11))%Z then "morning"
    else if ((11 <=? hour) && (hour <? 16))%Z then "afternoon"
    else if ((16 <=? hour) && (hour <? 21))%Z then "evening"
    else "night" in
  Features.mk year_progress seasonal_sin seasonal_cos diurnal_sin diurnal_cos
              season time_of_day hour month.

(* ================================================================== *)
(** * Elevation and the synthetic input patch *)

Local Open Scope R_scope.

Definition _get_elevation (lat lon : Q) : R :=
  let region := _determine_region_type lat lon in
  if RegionType_eqb region MOUNTAIN then 2500.0
  else if RegionType_eqb region TUNDRA then 200.0
  else if RegionType_eqb region OCEAN then -50.0
  else 100.0.

(** [1.0 - min(1.0, elevation / 5000.0)], computed alike by the patch
    generator and by the physical constraint pass. *)
Definition elevation_factor_of (elevation : R) : R :=
  1.0 - Rmin 1.0 (elevation / 5000.0).

(** [np.linspace(start, stop, num)]. *)
Definition linspace (start stop : R) (num : nat) : list R :=
  map (fun k => start + INR k * ((stop - start) / INR (num - 1))) (seq 0 num).

(** [np.meshgrid(x, y)]: entry [i][j] of the two grids is [(x[j], y[i])]. *)
Definition meshgrid (x y : list R) : list (list (R * R)) :=
  map (fun yi => map (fun xj => (xj, yi)) x) y.

(** Elementwise operation on a two-dimensional array. *)
Definition map2d {A B} (f : A -> B) (a : list (list A)) : list (list B) :=
  map (map f) a.

(** [np.clip(v, lo, hi)]. *)
Definition clip (v lo hi : R) : R := Rmin (Rmax v lo) hi.

Definition pattern_of (region_type : RegionType) (dist : R) : R :=
  if RegionType_eqb region_type OCEAN then 0.3 + 0.7 * exp (- dist * 3)
  else if RegionType_eqb region_type DESERT then 0.5 + 0.5 * sin (dist * 10)
  else if RegionType_eqb region_type URBAN then 0.4 + 0.6 * (1 - dist ^ 2)
  else Rmax 0.2 (exp (- dist * 2)).

(** The 128 x 128 array [patch] as it stands after [patch *= elevation_factor]. *)
Definition synthetic_frame (lat lon : Q) (dt : Datetime.t) : list (list R) :=
  let region_type := _determine_region_type lat lon in
  let temporal_features := _datetime_to_features dt in
  let elevation := _get_elevation lat lon in
  let x := linspace (-1) 1 128 in
  let y := linspace (-1) 1 128 in
  let grid := meshgrid x y in
  let dist := map2d (fun '(rel_lat, rel_lon) =>
                       sqrt (rel_lat ^ 2 + rel_lon ^ 2) / sqrt 2) grid in
  let pattern := map2d (pattern_of region_type) dist in
  let seasonal_effect := 0.5 * Features.seasonal_sin temporal_features
                         + 0.2 * Features.seasonal_cos temporal_features in
  let diurnal_effect := 0.3 * Features.diurnal_sin temporal_features
                        + 0.1 * Features.diurnal_cos temporal_features in
  let '(seasonal_effect, diurnal_effect) :=
    if RegionType_eqb region_type OCEAN
    then (seasonal_effect * 0.7, diurnal_effect * 0.5)
    else if RegionType_eqb region_type DESERT
    then (seasonal_effect * 1.2, diurnal_effect * 1.5)
    else if RegionType_eqb region_type URBAN
    then (seasonal_effect * 0.9, diurnal_effect * 1.2)
    else (seasonal_effect, diurnal_effect) in
  let patch := map2d (fun p => clip (p * (1 + seasonal_effect)
                                       * (1 + diurnal_effect * 0.5)) 0.1 1.0)
                     pattern in
  let elevation_factor := elevation_factor_of elevation in
  map2d (fun v => v * elevation_factor) patch.

(** [_generate_synthetic_patch]: the three weighted copies stacked along the
    leading axis (the trailing axis of length 1 is left implicit). *)
Definition _generate_synthetic_patch (lat lon : Q) (dt : Datetime.t)
    : list (list (list R)) :=
  let patch := synthetic_frame lat lon dt in
  [ map2d (fun v => v * 0.85) patch;
    map2d (fun v => v * 0.93) patch;
    patch ].

(* ================================================================== *)
(** * Temporal adjustment of the regional baseline *)

(** [table.get(label, {}).get(kind, {}).get(region_type, default)] *)
Definition param_get (table : ParamTable) (label kind : string)
    (region_type : RegionType) (default : Q) : R :=
  let params := dict_get String.eqb table label [] in
  Q2R (dict_get RegionType_eqb (dict_get String.eqb params kind []) region_type default).

(** [_apply_temporal_adjustments]: [base_values.copy()] detaches the row from
    the table, so the in-place updates are updates of a value. *)
Definition _apply_temporal_adjustments (base_values : Values.t)
    (dt : Datetime.t) (region_type : RegionType) : Values.t :=
  let temporal_features := _datetime_to_features dt in
  let season := Features.season temporal_features in
  let time_of_day := Features.time_of_day temporal_features in
  let adjusted_values := base_values in
  let temp_shift :=
    param_get seasonal_params season "temp_shift" region_type 0.0
    + param_get diurnal_params time_of_day "temp_shift" region_type 0.0 in
  let temperature :=
    Values.temperature adjusted_values
    + temp_shift * (1 + 0.1 * Features.seasonal_sin temporal_features) in
  let humidity_shift :=
    param_get seasonal_params season "humidity_shift" region_type 0.0
    + param_get diurnal_params time_of_day "humidity_shift" region_type 0.0 in
  let humidity :=
    Rmin 100 (Rmax 10 (Values.humidity adjusted_values + humidity_shift)) in
  let season_pollution :=
    param_get seasonal_params season "pollution_factor" region_type 1.0 in
  let diurnal_pollution :=
    param_get diurnal_params time_of_day "pollution_factor" region_type 1.0 in
  let pollution_factor := season_pollution * diurnal_pollution in
  let is_urban := RegionType_eqb region_type URBAN in
  {| Values.temperature := temperature;
     Values.humidity := humidity;
     Values.pressure := Values.pressure adjusted_values;
     Values.gas_resistance := Values.gas_resistance adjusted_values;
     Values.CO2 := Values.CO2 adjusted_values * pollution_factor;
     Values.VOC := Values.VOC adjusted_values
                   * (pollution_factor * (if is_urban then 1.2 else 1.1));
     Values.PM1_0 := Values.PM1_0 adjusted_values * pollution_factor;
     Values.PM2_5 := Values.PM2_5 adjusted_values
                     * (pollution_factor * (if is_urban then 1.3 else 1.2));
     Values.PM10 := Values.PM10 adjusted_values
                    * (pollution_factor * (if is_urban then 1.4 else 1.2)) |}.

(* ================================================================== *)
(** * Value synthesis and the physical constraint pass *)

Module BME688.
Record t : Type := mk {
  temperature : R;
  humidity : R;
  pressure : R;
  gas_resistance : R
}.
End BME688.

(** The dictionary returned by [_calculate_enhanced_values]; the one-entry
    dictionaries [{'temperature': v}] and [{'value': v}] are flattened. *)
Module Results.
Record t : Type := mk {
  BME688 : BME688.t;
  MCP9808_temperature : R;
  CO2_value : R;
  VOC_value : R;
  PM1_0_value : R;
  PM2_5_value : R;
  PM10_value : R
}.
End Results.

Definition sigmoid_scale (base factor range_scale steepness : R) : R :=
  base + (2 * range_scale) / (1 + exp (- steepness * (factor - 0.5))).

Definition exp_scale (base factor range_scale : R) : R :=
  base + range_scale * (exp (3 * factor) / exp 3).

Section Synthesis.
(** [random.uniform], a parameter so that it can be patched. *)
Variable uniform : R -> R -> Rand R.

Definition add_sensor_noise (value relative_scale absolute_min_noise : R) : Rand R :=
  let noise_scale := Rmax (Rabs value * relative_scale) absolute_min_noise in
  (u <~ uniform (- noise_scale) noise_scale ;; rand_ret (value + u))%rand.

(** The entries of the dictionary display are evaluated top to bottom, so
    the draws happen in this order. *)
Definition _calculate_enhanced_values (normalized_mean : R)
    (adjusted_values : Values.t) : Rand Results.t :=
  (bme_temperature <~ add_sensor_noise
      (sigmoid_scale (Values.temperature adjusted_values) normalized_mean 15 5)
      0.01 0.1 ;;
   bme_humidity <~ add_sensor_noise
      (Rmin 100 (Rmax 10 (Values.humidity adjusted_values + normalized_mean * 50)))
      0.005 0.1 ;;
   bme_pressure <~ add_sensor_noise
      (Rmax 950 (Rmin 1050 (Values.pressure adjusted_values - normalized_mean * 5)))
      0.001 0.1 ;;
   bme_gas_resistance <~ add_sensor_noise
      (exp_scale (Values.gas_resistance adjusted_values) normalized_mean 150000)
      0.02 0.1 ;;
   mcp_temperature <~ add_sensor_noise
      (sigmoid_scale (Values.temperature adjusted_values) normalized_mean 15 5)
      0.01 0.1 ;;
   co2 <~ add_sensor_noise
      (exp_scale (Values.CO2 adjusted_values) normalized_mean 600) 0.02 1.0 ;;
   voc <~ add_sensor_noise
      (exp_scale (Values.VOC adjusted_values) normalized_mean 400) 0.02 0.5 ;;
   pm1_0 <~ add_sensor_noise
      (exp_scale (Values.PM1_0 adjusted_values) normalized_mean 25) 0.05 0.1 ;;
   pm2_5 <~ add_sensor_noise
      (exp_scale (Values.PM2_5 adjusted_values) normalized_mean 30) 0.05 0.1 ;;
   pm10 <~ add_sensor_noise
      (exp_scale (Values.PM10 adjusted_values) normalized_mean 40) 0.05 0.1 ;;
   rand_ret
     {| Results.BME688 :=
          {| BME688.temperature := bme_temperature;
             BME688.humidity := bme_humidity;
             BME688.pressure := bme_pressure;
             BME688.gas_resistance := bme_gas_resistance |};
        Results.MCP9808_temperature := mcp_temperature;
        Results.CO2_value := co2;
        Results.VOC_value := voc;
        Results.PM1_0_value := Rmax 0 pm1_0;
        Results.PM2_5_value := Rmax 0 pm2_5;
        Results.PM10_value := Rmax 0 pm10 |})%rand.
End Synthesis.

Definition _apply_physics_constraints (values : Results.t) (lat lon : Q)
    (dt : Datetime.t) : Outcome Results.t :=
  let elevation := _get_elevation lat lon in
  let elevation_factor := elevation_factor_of elevation in
  let temp_adjustment := elevation_factor * 2.0 in
  let bme := Results.BME688 values in
  let bme_temperature := BME688.temperature bme - temp_adjustment in
  let mcp_temperature := Results.MCP9808_temperature values - temp_adjustment in
  let bme_pressure := BME688.pressure bme * (1 - elevation_factor * 0.00012) in
  let region_type := _determine_region_type lat lon in
  let area_type := if RegionType_eqb region_type URBAN then "urban" else "rural" in
  match dict_index String.eqb calibration_factors area_type area_type with
  | Raises e => Raises e
  | Returns calibration =>
    match dict_index String.eqb calibration "CO2" "CO2",
          dict_index String.eqb calibration "VOC" "VOC",
          dict_index String.eqb calibration "PM" "PM" with
    | Returns cal_CO2, Returns cal_VOC, Returns cal_PM =>
      Returns
        {| Results.BME688 :=
             {| BME688.temperature := bme_temperature;
                BME688.humidity := BME688.humidity bme;
                BME688.pressure := bme_pressure;
                BME688.gas_resistance := BME688.gas_resistance bme |};
           Results.MCP9808_temperature := mcp_temperature;
           Results.CO2_value := Results.CO2_value values * Q2R cal_CO2;
           Results.VOC_value := Results.VOC_value values * Q2R cal_VOC;
           Results.PM1_0_value := Results.PM1_0_value values * Q2R cal_PM;
           Results.PM2_5_value := Results.PM2_5_value values * Q2R cal_PM;
           Results.PM10_value := Results.PM10_value values * Q2R cal_PM |}
    | Raises e, _, _ => Raises e
    | _, Raises e, _ => Raises e
    | _, _, Raises e => Raises e
    end
  end.

(* ================================================================== *)
(** * Reductions over the model output *)

Definition np_sum (a : list R) : R := fold_right Rplus 0 a.

(** [np.mean(a)]. *)
Definition np_mean (a : list R) : R := np_sum a / INR (List.length a).

(** [np.min(a)] and [np.max(a)] of a non-empty array. *)
Definition np_min (a : list R) : R :=
  match a with
  | [] => 0
  | v :: rest => fold_right Rmin v rest
  end.

Definition np_max (a : list R) : R :=
  match a with
  | [] => 0
  | v :: rest => fold_right Rmax v rest
  end.

(** The activity signal of [predict]:
    [(pred_mean - np.min(mean_pred)) / (pred_range + 1e-7)]. *)
Definition normalized_activity (mean_pred : list R) : R :=
  let pred_mean := np_mean mean_pred in
  let pred_range := np_max mean_pred - np_min mean_pred in
  (pred_mean - np_min mean_pred) / (pred_range + 1e-7).

(* ================================================================== *)
(** * [predict] *)

Module Metadata.
Record t : Type := mk {
  latitude : Q;
  longitude : Q;
  date : string;
  time : string;
  season : string;
  time_of_day : string;
  normalized_activity : R;
  uncertainty : R
}.
End Metadata.

(** What [predict] returns: the results with their ['metadata'] entry, or
    the dictionary [{'error': ..., 'message': ...}]. *)
Inductive Prediction : Type :=
| PredictionResult (results : Results.t) (metadata : Metadata.t)
| ErrorResult (error message : string).

(** [time_str if time_str else '00:00']: [None] and the empty string are falsy. *)
Definition time_or_default (time_str : option string) : string :=
  match time_str with
  | None => "00:00"
  | Some EmptyString => "00:00"
  | Some s => s
  end.

Section Predict.
(** [datetime.strptime(text, format)]: the timestamp, or the message of the
    [ValueError] it raises. *)
Variable strptime : string -> string -> string + Datetime.t.

(** [self.model.predict(x, verbose=0)[0]] on the stacked patch: channel 0
    (mean field) and channel 1 (uncertainty field) of the output, each
    flattened, or the exception the call raises. *)
Variable model_predict : list (list (list R)) -> Outcome (list R * list R).

Variable uniform : R -> R -> Rand R.

Local Open Scope eng_scope.

(** The statements inside [try:]. *)
Definition predict_body (date_str : string) (lat lon : Q)
    (time_str : option string) : Eng Prediction :=
  dt <- lift_outcome
          (match strptime (date_str ++ " " ++ time_or_default time_str)%string
                          "%Y%m%d %H:%M" with
           | inl msg => Raises (ValueError msg)
           | inr dt => Returns dt
           end) ;;
  let input_patch := _generate_synthetic_patch lat lon dt in
  pred <- lift_outcome (model_predict input_patch) ;;
  let '(mean_pred, uncertainty) := pred in
  (* np.max and np.min refuse an array without elements *)
  _ <- (match mean_pred with
        | [] => raise (ValueError "zero-size array to reduction operation maximum which has no identity")
        | _ => ret tt
        end) ;;
  let normalized_mean := normalized_activity mean_pred in
  let region_type := _determine_region_type lat lon in
  base_values <- lift_outcome
    (dict_index RegionType_eqb regional_base_values region_type "RegionType") ;;
  let adjusted_values := _apply_temporal_adjustments base_values dt region_type in
  results <- lift_rand (_calculate_enhanced_values uniform normalized_mean adjusted_values) ;;
  results <- lift_outcome (_apply_physics_constraints results lat lon dt) ;;
  ret (PredictionResult results
         {| Metadata.latitude := lat;
            Metadata.longitude := lon;
            Metadata.date := date_str;
            Metadata.time := time_or_default time_str;
            Metadata.season := Features.season (_datetime_to_features dt);
            Metadata.time_of_day := Features.time_of_day (_datetime_to_features dt);
            Metadata.normalized_activity := normalized_mean;
            Metadata.uncertainty := np_mean uncertainty |}).

Definition predict (date_str : string) (lat lon : Q)
    (time_str : option string) : Eng Prediction :=
  try_except (predict_body date_str lat lon time_str)
    (fun e => ErrorResult (str e) "Invalid date/time format or input values")
    (fun e => ErrorResult (str e) "Prediction failed").
End Predict.

(* ================================================================== *)
(** * Collaborators used to run the engine on examples *)

Module Fixtures.

Definition digit (c : ascii) : option Z :=
  let n := nat_of_ascii c in
  if ((48 <=? n) && (n <=? 57))%nat then Some (Z.of_nat (n - 48)) else None.

Fixpoint number (cs : list ascii) (acc : Z) : option Z :=
  match cs with
  | [] => Some acc
  | c :: rest =>
    match digit c with
    | Some d => number rest (10 * acc + d)%Z
    | None => None
    end
  end.

Definition days_in_month (y m : Z) : Z :=
  if (m =? 2)%Z then (if Datetime.is_leap y then 29 else 28)%Z
  else if ((m =? 4) || (m =? 6) || (m =? 9) || (m =? 11))%Z then 30%Z
  else 31%Z.

(** A parser for the fixed-width form [YYYYMMDD HH:MM] of the format
    ["%Y%m%d %H:%M"]; every other text is refused. *)
Definition strptime_fixed_width (text format : string) : string + Datetime.t :=
  match list_ascii_of_string text with
  | [y1; y2; y3; y4; m1; m2; d1; d2; sp; h1; h2; colon; n1; n2] =>
    match number [y1; y2; y3; y4] 0, number [m1; m2] 0, number [d1; d2] 0,
          number [h1; h2] 0, number [n1; n2] 0 with
    | Some y, Some m, Some d, Some h, Some n =>
      if (Ascii.eqb sp " " && Ascii.eqb colon ":" &&
          (1 <=? y) && (1 <=? m) && (m <=? 12) &&
          (1 <=? d) && (d <=? days_in_month y m) &&
          (h <=? 23) && (n <=? 59))%Z%bool
      then inr (Datetime.mk y m d h n)
      else inl ("time data does not match format " ++ format)%string
    | _, _, _, _, _ => inl ("time data does not match format " ++ format)%string
    end
  | _ => inl ("time data does not match format " ++ format)%string
  end.

(** A model whose two output channels are constant over the 128 x 128 grid. *)
Definition constant_model (mean uncertainty : R)
    (x : list (list (list R))) : Outcome (list R * list R) :=
  Returns (repeat mean (128 * 128), repeat uncertainty (128 * 128)).

(** A model call that raises. *)
Definition failing_model (x : list (list (list R))) : Outcome (list R * list R) :=
  Raises (OtherException "model call failed").

(** Generator states: every draw is 1/2 (so [uniform(-s, s)] gives 0), and
    every draw is 0 (so [uniform(-s, s)] gives [-s]). *)
Definition rng_half : Rng := fun _ => 1 / 2.
Definition rng_zero : Rng := fun _ => 0.

End Fixtures.

(* ================================================================== *)
(** * The claims about the results, as the specification words them *)


(** Every element of the final frame within [0.1, 1.0]. *)
Definition frame_within_clamp (frame : list (list R)) : Prop :=
  forall row v, In row frame -> In v row -> 0.1 <= v <= 1.0.

(** Clamping [x] to the interval from [lo] to [hi]. *)
Definition clamp_to (lo hi x : R) : R :=
  if Rlt_dec x lo then lo else if Rlt_dec hi x then hi else x.

(** A multiplier that is [urban] for the Urban region and [other] elsewhere. *)
Definition urban_else (region : RegionType) (urban other : R) : R :=
  match region with
  | URBAN => urban
  | _ => other
  end.

(** The temporal adjustment step in the words of the specification. *)
Definition temporal_adjustment_spec (base : Values.t) (dt : Datetime.t)
    (region : RegionType) : Values.t :=
  let f := _datetime_to_features dt in
  let season_shift kind default :=
    param_get seasonal_params (Features.season f) kind region default in
  let diurnal_shift kind default :=
    param_get diurnal_params (Features.time_of_day f) kind region default in
  let pollution :=
    season_shift "pollution_factor" 1.0%Q * diurnal_shift "pollution_factor" 1.0%Q in
  {| Values.temperature :=
       Values.temperature base
       + (season_shift "temp_shift" 0.0%Q + diurnal_shift "temp_shift" 0.0%Q)
         * (1 + 0.1 * Features.seasonal_sin f);
     Values.humidity :=
       clamp_to 10 100
         (Values.humidity base
          + season_shift "humidity_shift" 0.0%Q + diurnal_shift "humidity_shift" 0.0%Q);
     Values.pressure := Values.pressure base;
     Values.gas_resistance := Values.gas_resistance base;
     Values.CO2 := Values.CO2 base * pollution;
     Values.VOC := Values.VOC base * pollution * urban_else region 1.2 1.1;
     Values.PM1_0 := Values.PM1_0 base * pollution;
     Values.PM2_5 := Values.PM2_5 base * pollution * urban_else region 1.3 1.2;
     Values.PM10 := Values.PM10 base * pollution * urban_else region 1.4 1.2 |}.

(* ================================================================== *)
(** * Definitions used to state and prove the properties *)

(** One cell of [patch], from its pair of grid coordinates. *)
Definition frame_cell (lat lon : Q) (dt : Datetime.t) (p : R * R) : R :=
  let region_type := _determine_region_type lat lon in
  let temporal_features := _datetime_to_features dt in
  let seasonal_effect := 0.5 * Features.seasonal_sin temporal_features
                         + 0.2 * Features.seasonal_cos temporal_features in
  let diurnal_effect := 0.3 * Features.diurnal_sin temporal_features
                        + 0.1 * Features.diurnal_cos temporal_features in
  let effects :=
    if RegionType_eqb region_type OCEAN
    then (seasonal_effect * 0.7, diurnal_effect * 0.5)
    else if RegionType_eqb region_type DESERT
    then (seasonal_effect * 1.2, diurnal_effect * 1.5)
    else if RegionType_eqb region_type URBAN
    then (seasonal_effect * 0.9, diurnal_effect * 1.2)
    else (seasonal_effect, diurnal_effect) in
  let dist := sqrt (fst p ^ 2 + snd p ^ 2) / sqrt 2 in
  clip (pattern_of region_type dist * (1 + fst effects)
        * (1 + snd effects * 0.5)) 0.1 1.0
  * elevation_factor_of (_get_elevation lat lon).

(** The [k]-th point of [np.linspace(-1, 1, 128)]. *)
Definition grid_coordinate (k : nat) : R :=
  -1 + INR k * ((1 - -1) / INR (128 - 1)).

(** Row [i] of [patch]. *)
Definition frame_row (lat lon : Q) (dt : Datetime.t) (i : nat) : list R :=
  map (frame_cell lat lon dt)
      (map (fun xj => (xj, grid_coordinate i)) (linspace (-1) 1 128)).

(** The timestamps of the example patches. *)
Definition new_year_midnight : Datetime.t := Datetime.mk 2025 1 1 0 0.

Definition july_evening : Datetime.t := Datetime.mk 2025 7 20 18 0.

(** The row [self.regional_base_values[region_type]]. *)
Definition base_values_of (region_type : RegionType) : Values.t :=
  dict_get RegionType_eqb regional_base_values region_type
           (base_row 0 0 0 0 0 0 0 0 0).

(** The result of the physical constraint pass. *)
Definition physics_constrained (values : Results.t) (lat lon : Q) : Results.t :=
  let ef := elevation_factor_of (_get_elevation lat lon) in
  let urban := RegionType_eqb (_determine_region_type lat lon) URBAN in
  let bme := Results.BME688 values in
  {| Results.BME688 :=
       {| BME688.temperature := BME688.temperature bme - ef * 2.0;
          BME688.humidity := BME688.humidity bme;
          BME688.pressure := BME688.pressure bme * (1 - ef * 0.00012);
          BME688.gas_resistance := BME688.gas_resistance bme |};
     Results.MCP9808_temperature := Results.MCP9808_temperature values - ef * 2.0;
     Results.CO2_value :=
       Results.CO2_value values * Q2R (if urban then 1.1 else 1.0)%Q;
     Results.VOC_value :=
       Results.VOC_value values * Q2R (if urban then 1.2 else 1.0)%Q;
     Results.PM1_0_value :=
       Results.PM1_0_value values * Q2R (if urban then 1.3 else 1.0)%Q;
     Results.PM2_5_value :=
       Results.PM2_5_value values * Q2R (if urban then 1.3 else 1.0)%Q;
     Results.PM10_value :=
       Results.PM10_value values * Q2R (if urban then 1.3 else 1.0)%Q |}.

(** The dictionary an [except] clause of [predict] returns for [e]. *)
Definition error_result (e : Exception) : Prediction :=
  match e with
  | ValueError m => ErrorResult m "Invalid date/time format or input values"
  | _ => ErrorResult (str e) "Prediction failed"
  end.

Definition metadata_of (date_str : string) (lat lon : Q) (time_str : option string)
    (dt : Datetime.t) (mean_pred uncertainty : list R) : Metadata.t :=
  {| Metadata.latitude := lat;
     Metadata.longitude := lon;
     Metadata.date := date_str;
     Metadata.time := time_or_default time_str;
     Metadata.season := Features.season (_datetime_to_features dt);
     Metadata.time_of_day := Features.time_of_day (_datetime_to_features dt);
     Metadata.normalized_activity := normalized_activity mean_pred;
     Metadata.uncertainty := np_mean uncertainty |}.

(** The values before noise-dependent synthesis: the adjusted baseline of the
    point's region. *)
Definition adjusted_values_of (lat lon : Q) (dt : Datetime.t) : Values.t :=
  let region_type := _determine_region_type lat lon in
  _apply_temporal_adjustments (base_values_of region_type) dt region_type.

(** [max(abs(value) * relative_scale, absolute_min_noise)]. *)
Definition noise_scale (value relative_scale absolute_min_noise : R) : R :=
  Rmax (Rabs value * relative_scale) absolute_min_noise.

(** [x] is [value] plus a draw [u] that the noise strategy, described by [P],
    may return for the band of [value]. *)
Definition noised (P : R -> R -> R -> Prop)
    (value relative_scale absolute_min_noise x : R) : Prop :=
  exists u,
    P (- noise_scale value relative_scale absolute_min_noise)
      (noise_scale value relative_scale absolute_min_noise) u /\
    x = value + u.

(** The generator only supplies values of [random.random()] between 0 and 1. *)
Definition unit_draws (g : Rng) : Prop := forall n, 0 <= g n <= 1.


(** The example requests: 15 June 2025 at 14:00 and at 23:00, on a model
    whose output is constantly 0. *)
Definition june_afternoon : Datetime.t := Datetime.mk 2025 6 15 14 0.


Definition constant_field : list R := repeat 0 (128 * 128).

(** The results [predict] returns for such a request. *)
Definition example_results (uniform : R -> R -> Rand R) (lat lon : Q)
    (dt : Datetime.t) (g : Rng) : Results.t :=
  physics_constrained
    (fst (_calculate_enhanced_values uniform (normalized_activity constant_field)
            (adjusted_values_of lat lon dt) g)) lat lon.

Definition example_metadata (lat lon : Q) (time_str : string) (dt : Datetime.t)
    : Metadata.t :=
  metadata_of "20250615" lat lon (Some time_str) dt constant_field constant_field.


(* ================================================================== *)
(** * Further parts of the code *)

(** ** Grid indices: [_latlon_to_merra_index] *)

(** Python's [min(a, b)] and [max(a, b)] on numbers: the first argument
    unless the second is strictly smaller (larger). *)
Definition py_min (a b : Q) : Q := if Cascade.ltb b a then b else a.

Definition py_max (a b : Q) : Q := if Cascade.ltb a b then b else a.

(** [int(x)] of a float: truncation towards zero. *)
Definition py_int (x : Q) : Z :=
  if Qle_bool 0 x then Qround.Qfloor x else Qround.Qceiling x.

(** The MERRA-2 grid parameters set in [__init__]. *)
Definition lat_min : Q := -90.

Definition lat_max : Q := 90.

Definition lon_min : Q := -180.

Definition lon_max : Q := 180.

Definition lat_res : Q := 0.5.

Definition lon_res : Q := 0.625.

Definition _latlon_to_merra_index (lat lon : Q) : Z * Z :=
  let lat := py_max (py_min lat lat_max) lat_min in
  let lon := py_max (py_min lon lon_max) lon_min in
  let lat_idx := py_int ((lat_max - lat) / lat_res) in
  let lon_idx := py_int ((lon - lon_min) / lon_res) in
  (lat_idx, lon_idx).

(** A calendar date as [datetime] accepts it. *)
Definition valid_date (dt : Datetime.t) : Prop :=
  (1 <= Datetime.month dt <= 12)%Z /\
  (1 <= Datetime.day dt
   <= Fixtures.days_in_month (Datetime.year dt) (Datetime.month dt))%Z.

(** ** utils.py: [generate_deterministic_variation] *)

Section DeterministicVariation.
(** The text [f"{lat:.6f}_{lon:.6f}_{dt.strftime('%Y%m%d%H%M%S')}_{param}"]
    and the number [int(hashlib.sha256(text.encode()).hexdigest(), 16)]. *)
Variable input_str : Q -> Q -> Datetime.t -> string -> string.
Variable sha256_int : string -> Z.

Definition generate_deterministic_variation (lat lon : Q) (dt : Datetime.t)
    (param : string) (scale : Q) : Q :=
  let hash_value := sha256_int (input_str lat lon dt param) in
  let normalized := (inject_Z (hash_value mod 10000) / 10000.0 * 2 - 1)%Q in
  (normalized * scale)%Q.
End DeterministicVariation.

(** ** Construction: [__init__] and [_validate_model] *)

(** What [tf.keras.models.load_model] does in [__init__]: it raises
    [FileNotFoundError], raises another exception, or returns a model, of
    which the constructor only uses the answer to the self-test call
    [model.predict(test_input)]: the shape of the output, or an exception. *)
Inductive LoadOutcome : Type :=
| LoadFileNotFound (msg : string)
| LoadRaises (e : Exception)
| Loaded (test_output_shape : Outcome (list Z)).

(** Equality of two shape tuples. *)
Definition shape_eqb (a b : list Z) : bool :=
  if list_eq_dec Z.eq_dec a b then true else false.

(** [_validate_model]: every exception inside the [try], its own
    [ValueError] included, is raised again as a [ValueError]. *)
Definition _validate_model (test_output_shape : Outcome (list Z)) : Outcome unit :=
  let body :=
    match test_output_shape with
    | Raises e => Raises e
    | Returns shape =>
      if negb (shape_eqb shape [1; 128; 128; 2]%Z)
      then Raises (ValueError "Model output shape mismatch")
      else Returns tt
    end in
  match body with
  | Returns tt => Returns tt
  | Raises e => Raises (ValueError ("Model validation failed: " ++ str e))
  end.

(** [__init__]: [inl msg] stands for [raise RuntimeError(msg)], [inr tt] for a
    constructed predictor (the assignments of the tables cannot fail). *)
Definition __init__ (load_model : string -> LoadOutcome) (model_path : string)
    : string + unit :=
  match load_model model_path with
  | LoadFileNotFound _ => inl ("Model file not found at " ++ model_path)%string
  | LoadRaises e => inl ("Initialization failed: " ++ str e)%string
  | Loaded test_output_shape =>
    match _validate_model test_output_shape with
    | Returns tt => inr tt
    | Raises e => inl ("Initialization failed: " ++ str e)%string
    end
  end.

(** ** app.py: the [/predict] endpoint *)

Module App.

(** A parsed JSON value, as [request.json] returns it. *)
#[warnings="-register-all"]
Inductive Json : Type :=
| JNull
| JBool (b : bool)
| JNumber (q : Q)
| JString (s : string)
| JArray (items : list Json)
| JObject (fields : list (string * Json)).

(** Python truthiness of a parsed value. *)
Definition truthy (v : Json) : bool :=
  match v with
  | JNull => false
  | JBool b => b
  | JNumber q => negb (Qeq_bool q 0)
  | JString s => negb (String.eqb s "")
  | JArray items => match items with [] => false | _ => true end
  | JObject fields => match fields with [] => false | _ => true end
  end.

(** [jsonify(body), status]. *)
Record Response : Type := mkResponse {
  status : Z;
  body : list (string * string)
}.

Definition init_failed_msg : string :=
  "HighAccuracyEnvironmentalPredictor failed to initialize. Check server logs for details.".

(** The suffix of [f"{x:.1f}°C"], as the bytes of its UTF-8 encoding. *)
Definition degree_celsius : string :=
  String (ascii_of_nat 194) (String (ascii_of_nat 176) "C").

Section Endpoint.
(** The engine behind the module-level [predictor], when it was constructed. *)
Variable engine_predict :
  string -> Q -> Q -> option string -> Eng Prediction.
(** [float(s)] of a string: the number, or [None] for the [ValueError]. *)
Variable float_of_string : string -> option Q.
(** The format specifications [.1f] and [.2f]. *)
Variable format_1f format_2f : R -> string.

(** [float(v)] for a truthy parsed value. *)
Definition py_float (v : Json) : Outcome Q :=
  match v with
  | JNumber q => Returns q
  | JBool b => Returns (if b then 1 else 0)%Q
  | JString s =>
    match float_of_string s with
    | Some q => Returns q
    | None => Raises (ValueError ("could not convert string to float: " ++ s))
    end
  | _ => Raises (OtherException
                   "float() argument must be a string or a real number")
  end.

(** The body of the endpoint; [predictor_loaded] tells whether the
    module-level [predictor] is not [None], [date] and [time] are the two
    [strftime] texts of [datetime.now()]. *)
Definition predict (predictor_loaded : bool) (date time : string) (data : Json)
    : Eng Response :=
  if negb predictor_loaded
  then ret (mkResponse 500 [("error", init_failed_msg)])
  else if negb (truthy data)
  then ret (mkResponse 400 [("error", "No JSON data provided in the request.")])
  else
    match data with
    | JObject fields =>
      let latitude := dict_get String.eqb fields "latitude" JNull in
      let longitude := dict_get String.eqb fields "longitude" JNull in
      if negb (truthy latitude && truthy longitude)
      then ret (mkResponse 400
                  [("error", "Missing required fields: latitude or longitude")])
      else
        try_except
          (bind (lift_outcome (py_float latitude)) (fun lat =>
           bind (lift_outcome (py_float longitude)) (fun lon =>
           bind (engine_predict date lat lon (Some time)) (fun result =>
           match result with
           | ErrorResult _ message => ret (mkResponse 500 [("error", message)])
           | PredictionResult r _ =>
             ret (mkResponse 200
               [ ("temperature",
                  format_1f (BME688.temperature (Results.BME688 r)) ++ degree_celsius);
                 ("humidity",
                  format_1f (BME688.humidity (Results.BME688 r)) ++ "%");
                 ("CO2", format_1f (Results.CO2_value r) ++ " ppm");
                 ("VOC", format_2f (Results.VOC_value r));
                 ("PM1.0", format_2f (Results.PM1_0_value r));
                 ("PM2.5", format_2f (Results.PM2_5_value r));
                 ("PM10", format_2f (Results.PM10_value r)) ])
           end))))
          (fun e => mkResponse 500
             [("error", "An error occurred while making the prediction: " ++ str e)])
          (fun e =>
             match e with
             | KeyError m =>
               mkResponse 500
                 [("error", "Missing key in prediction result: " ++ m)]
             | _ =>
               mkResponse 500
                 [("error", "An error occurred while making the prediction: " ++ str e)]
             end)
    | _ => raise (OtherException "object has no attribute 'get'")
    end.
End Endpoint.

End App.

(* ================================================================== *)
(** * Region classifier *)

Lemma RegionType_eqb_spec a b : reflect (a = b) (RegionType_eqb a b).
Proof. destruct a, b; vm_compute; constructor; congruence. Qed.

Example classify_equator_ocean : _determine_region_type 0 10 = OCEAN.
Proof. reflexivity. Qed.

Example classify_polar_tundra : _determine_region_type 70 0 = TUNDRA.
Proof. reflexivity. Qed.

(** Where the centres of the [major_cities] boxes land in the cascade. *)
Example classify_major_city_centres :
  map (fun c => _determine_region_type (fst c) (snd c)) Cascade.major_cities
  = [FOREST_TEMPERATE; FOREST_TEMPERATE; FOREST_TEMPERATE; OCEAN; DESERT;
     FOREST_TEMPERATE; URBAN; URBAN; URBAN; URBAN].
Proof. vm_compute. reflexivity. Qed.

(** C1.  At latitude 40.7, longitude -74.0 the city-box test holds (the point
    is the first entry of [major_cities]), but the temperate-forest band
    40 < lat < 60, -130 < lon < -70 is tested earlier and returns first: the
    classifier answers FOREST_TEMPERATE, not URBAN. *)
Theorem classify_nyc_shadowed_by_forest_band :
  Cascade.urban_rule 40.7 (-74.0) = true /\
  Cascade.forest_temperate_rule 40.7 (-74.0) = true /\
  _determine_region_type 40.7 (-74.0) = FOREST_TEMPERATE /\
  _determine_region_type 40.7 (-74.0) <> URBAN.
Proof.
  repeat split; try (vm_compute; reflexivity).
  vm_compute. discriminate.
Qed.

(** C8.  At latitude 27, longitude 0 the ocean rule (tested first) does not
    hold, because longitude 0 lies in neither of the open bands 0 < lon < 20
    and -20 < lon < 0; the desert band 15 < lat < 30, -10 < lon < 50 holds and
    the classifier answers DESERT. *)
Theorem classify_27_0_desert :
  _determine_region_type 27 0 = DESERT /\
  Cascade.ocean_rule 27 0 = false /\
  Cascade.between 0 0 20 = false /\
  (Cascade.between 15 27 30 && Cascade.between (-10) 0 50 = true)%bool.
Proof. repeat split; vm_compute; reflexivity. Qed.

(* ================================================================== *)
(** * The activity signal *)










(* ================================================================== *)
(** * Temporal adjustment *)

Lemma clamp_to_min_max (lo hi x : R) :
  lo <= hi -> clamp_to lo hi x = Rmin hi (Rmax lo x).
Proof.
  intros Hle. unfold clamp_to.
  destruct (Rlt_dec x lo) as [Hlt | Hge].
  - rewrite Rmax_left by lra. rewrite Rmin_right by lra. reflexivity.
  - rewrite Rmax_right by lra.
    destruct (Rlt_dec hi x) as [Hgt | Hle'].
    + rewrite Rmin_left by lra. reflexivity.
    + rewrite Rmin_right by lra. reflexivity.
Qed.

Lemma urban_else_eqb (region : RegionType) (urban other : R) :
  (if RegionType_eqb region URBAN then urban else other)
  = urban_else region urban other.
Proof. destruct region; reflexivity. Qed.

(** For the labels [_datetime_to_features] produces, every table has an
    entry for every region: the defaults of the [.get] calls are never used. *)
Lemma param_tables_total (dt : Datetime.t) (region_type : RegionType)
    (kind : string) :
  In kind ["temp_shift"; "humidity_shift"; "pollution_factor"]%string ->
  let f := _datetime_to_features dt in
  dict_lookup RegionType_eqb
    (dict_get String.eqb (dict_get String.eqb seasonal_params (Features.season f) [])
              kind []) region_type <> None /\
  dict_lookup RegionType_eqb
    (dict_get String.eqb (dict_get String.eqb diurnal_params (Features.time_of_day f) [])
              kind []) region_type <> None.
Proof.
  intros Hkind. unfold _datetime_to_features. cbv zeta.
  cbn [Features.season Features.time_of_day].
  destruct Hkind as [<- | [<- | [<- | []]]]; split;
    repeat match goal with
    | |- context [if ?c then _ else _] => destruct c
    end;
    destruct region_type; vm_compute; discriminate.
Qed.

Lemma adjusted_humidity_in_range (base_values : Values.t) (dt : Datetime.t)
    (region_type : RegionType) :
  10 <= Values.humidity (_apply_temporal_adjustments base_values dt region_type) <= 100.
Proof.
  unfold _apply_temporal_adjustments. cbv zeta. cbn [Values.humidity].
  split; [apply Rmin_glb; [lra | apply Rmax_l] | apply Rmin_l].
Qed.

(** C7.  For every baseline row, timestamp and region the adjustment step of
    the code computes what the specification describes: temperature
    baseline + (season shift + diurnal shift) * (1 + 0.1 * seasonal_sin),
    humidity baseline + shifts clamped to [10,100], pollution baselines times
    season factor * diurnal factor, with the extra factor 1.2 / 1.1 for VOC,
    1.3 / 1.2 for PM2.5 and 1.4 / 1.2 for PM10 (Urban / any other region) and
    no extra factor for CO2 and PM1.0; pressure and gas resistance are kept. *)
Theorem temporal_adjustments_refine_spec
    (base_values : Values.t) (dt : Datetime.t) (region_type : RegionType) :
  _apply_temporal_adjustments base_values dt region_type
  = temporal_adjustment_spec base_values dt region_type.
Proof.
  unfold _apply_temporal_adjustments, temporal_adjustment_spec.
  cbv zeta.
  rewrite !urban_else_eqb.
  rewrite (clamp_to_min_max 10 100) by lra.
  f_equal; try ring.
  do 2 f_equal. ring.
Qed.

(* ================================================================== *)
(** * The synthetic input patch *)

Lemma map2d_map2d {A B C} (f : A -> B) (g : B -> C) (a : list (list A)) :
  map2d g (map2d f a) = map2d (fun v => g (f v)) a.
Proof.
  unfold map2d. rewrite map_map. apply map_ext. intros row. apply map_map.
Qed.

Lemma map2d_ext {A B} (f g : A -> B) (a : list (list A)) :
  (forall v, f v = g v) -> map2d f a = map2d g a.
Proof.
  intros Hfg. unfold map2d. apply map_ext. intros row. apply map_ext, Hfg.
Qed.

Lemma map2d_In {A B} (f : A -> B) (a : list (list A)) (row : list B) (v : B) :
  In row (map2d f a) -> In v row -> exists p, v = f p.
Proof.
  unfold map2d. intros Hrow Hv.
  apply in_map_iff in Hrow. destruct Hrow as [row0 [<- _]].
  apply in_map_iff in Hv. destruct Hv as [p [<- _]].
  exists p. reflexivity.
Qed.

Lemma map2d_In_intro {A B} (f : A -> B) (a : list (list A)) (row : list A) (p : A) :
  In row a -> In p row -> In (map f row) (map2d f a) /\ In (f p) (map f row).
Proof.
  intros Hrow Hp. split; [apply in_map, Hrow | apply in_map, Hp].
Qed.

Lemma synthetic_frame_cells (lat lon : Q) (dt : Datetime.t) :
  synthetic_frame lat lon dt
  = map2d (frame_cell lat lon dt)
          (meshgrid (linspace (-1) 1 128) (linspace (-1) 1 128)).
Proof.
  unfold synthetic_frame. cbv zeta.
  match goal with
  | |- (let '(s, d) := ?e in _) = _ => destruct e as [se de] eqn:Heff
  end.
  rewrite !map2d_map2d. apply map2d_ext. intros [rel_lat rel_lon].
  unfold frame_cell. cbv zeta. rewrite Heff. reflexivity.
Qed.

Lemma clip_bounds (v lo hi : R) : lo <= hi -> lo <= clip v lo hi <= hi.
Proof.
  intros Hle. unfold clip. split.
  - apply Rmin_glb; [apply Rmax_r | exact Hle].
  - apply Rmin_r.
Qed.

Lemma elevation_factor_cases (lat lon : Q) :
  let ef := elevation_factor_of (_get_elevation lat lon) in
  ef = 0.5 \/ ef = 0.96 \/ ef = 1.01 \/ ef = 0.98.
Proof.
  unfold _get_elevation, elevation_factor_of. cbv zeta.
  destruct (RegionType_eqb _ MOUNTAIN);
    [| destruct (RegionType_eqb _ TUNDRA);
       [| destruct (RegionType_eqb _ OCEAN)]].
  - left. rewrite Rmin_right by lra. lra.
  - right; left. rewrite Rmin_right by lra. lra.
  - right; right; left. rewrite Rmin_right by lra. lra.
  - right; right; right. rewrite Rmin_right by lra. lra.
Qed.

Lemma elevation_factor_range (lat lon : Q) :
  0.5 <= elevation_factor_of (_get_elevation lat lon) <= 1.01.
Proof.
  pose proof (elevation_factor_cases lat lon) as H. cbv zeta in H.
  destruct H as [H | [H | [H | H]]]; rewrite H; lra.
Qed.

Lemma mountain_point : _determine_region_type 40 (-110) = MOUNTAIN.
Proof. vm_compute. reflexivity. Qed.

Lemma mountain_elevation_factor :
  elevation_factor_of (_get_elevation 40 (-110)) = 0.5.
Proof.
  unfold _get_elevation. rewrite mountain_point.
  change (RegionType_eqb MOUNTAIN MOUNTAIN) with true. cbv iota.
  unfold elevation_factor_of. rewrite Rmin_right by lra. lra.
Qed.

(** C3, as amended.  The clamp to [0.1, 1.0] comes before the elevation
    factor: every element of the final frame is [c * elevation_factor] with
    0.1 <= c <= 1.0 and elevation_factor one of 0.5, 0.96, 0.98, 1.01
    (mountain, tundra, other land, ocean), hence lies in [0.05, 1.01]. *)
Theorem synthetic_frame_elements (lat lon : Q) (dt : Datetime.t)
    (row : list R) (v : R) :
  In row (synthetic_frame lat lon dt) -> In v row ->
  let ef := elevation_factor_of (_get_elevation lat lon) in
  (exists c, 0.1 <= c <= 1.0 /\ v = c * ef) /\
  (ef = 0.5 \/ ef = 0.96 \/ ef = 1.01 \/ ef = 0.98) /\
  0.05 <= v <= 1.01.
Proof.
  intros Hrow Hv ef.
  rewrite synthetic_frame_cells in Hrow.
  destruct (map2d_In _ _ _ _ Hrow Hv) as [p ->].
  unfold frame_cell. cbv zeta. fold ef.
  match goal with
  | |- context [clip ?x 0.1 1.0] =>
      pose proof (clip_bounds x 0.1 1.0 ltac:(lra)) as Hc;
      set (c := clip x 0.1 1.0) in *
  end.
  pose proof (elevation_factor_range lat lon) as Hef. fold ef in Hef.
  split; [exists c; split; [exact Hc | reflexivity] |].
  split; [apply elevation_factor_cases | nra].
Qed.

Lemma grid_coordinate_In (k : nat) :
  (k < 128)%nat -> In (grid_coordinate k) (linspace (-1) 1 128).
Proof.
  intros Hk. unfold linspace.
  apply (in_map (fun k => -1 + INR k * ((1 - -1) / INR (128 - 1)))).
  apply in_seq. lia.
Qed.

Lemma frame_cell_In (lat lon : Q) (dt : Datetime.t) (i j : nat) :
  (i < 128)%nat -> (j < 128)%nat ->
  In (frame_row lat lon dt i) (synthetic_frame lat lon dt) /\
  In (frame_cell lat lon dt (grid_coordinate j, grid_coordinate i))
     (frame_row lat lon dt i).
Proof.
  intros Hi Hj. rewrite synthetic_frame_cells. unfold frame_row.
  apply map2d_In_intro.
  - unfold meshgrid.
    apply (in_map (fun yi => map (fun xj => (xj, yi)) (linspace (-1) 1 128))).
    apply grid_coordinate_In, Hi.
  - apply (in_map (fun xj => (xj, grid_coordinate i))).
    apply grid_coordinate_In, Hj.
Qed.

Lemma grid_coordinate_63 : grid_coordinate 63 = - (1 / 127).
Proof.
  unfold grid_coordinate. rewrite !INR_IZR_INZ.
  change (Z.of_nat 63) with 63%Z. change (Z.of_nat (128 - 1)) with 127%Z.
  lra.
Qed.

Lemma dist_centre :
  sqrt ((- (1 / 127)) ^ 2 + (- (1 / 127)) ^ 2) / sqrt 2 = 1 / 127.
Proof.
  replace ((- (1 / 127)) ^ 2 + (- (1 / 127)) ^ 2) with (2 * (1 / 127) ^ 2) by lra.
  rewrite sqrt_mult by nra.
  rewrite sqrt_pow2 by lra.
  pose proof sqrt2_neq_0 as H2.
  field. exact H2.
Qed.

Lemma features_new_year_midnight :
  let f := _datetime_to_features new_year_midnight in
  Features.seasonal_sin f = 0 /\ Features.seasonal_cos f = 1 /\
  Features.diurnal_sin f = 0 /\ Features.diurnal_cos f = 1.
Proof.
  unfold _datetime_to_features. cbv zeta.
  cbn [Features.seasonal_sin Features.seasonal_cos
       Features.diurnal_sin Features.diurnal_cos].
  change (Datetime.tm_yday new_year_midnight - 1)%Z with 0%Z.
  change (Datetime.hour new_year_midnight * 60
          + Datetime.minute new_year_midnight)%Z with 0%Z.
  replace (2 * PI * (0 / 365.0)) with 0 by lra.
  replace (2 * PI * (0 / IZR (24 * 60))) with 0
    by (unfold Rdiv; rewrite Rmult_0_l, Rmult_0_r; reflexivity).
  rewrite sin_0, cos_0. repeat split; reflexivity.
Qed.

(** The cell next to the centre of an ocean patch on 1 January, 00:00. *)
Lemma ocean_centre_cell :
  frame_cell 0 10 new_year_midnight (grid_coordinate 63, grid_coordinate 63)
  = 1.01.
Proof.
  unfold frame_cell. cbv zeta.
  destruct features_new_year_midnight as [Hss [Hsc [Hds Hdc]]].
  rewrite Hss, Hsc, Hds, Hdc.
  unfold _get_elevation.
  change (_determine_region_type 0 10) with OCEAN.
  change (RegionType_eqb OCEAN OCEAN) with true.
  change (RegionType_eqb OCEAN MOUNTAIN) with false.
  change (RegionType_eqb OCEAN TUNDRA) with false.
  cbv iota. cbn [fst snd].
  rewrite grid_coordinate_63, dist_centre.
  unfold pattern_of. change (RegionType_eqb OCEAN OCEAN) with true. cbv iota.
  pose proof (exp_ineq1_le (- (1 / 127) * 3)) as Hexp.
  unfold elevation_factor_of. rewrite (Rmin_right 1.0) by lra.
  unfold clip.
  rewrite Rmax_left by nra.
  rewrite Rmin_right by nra.
  lra.
Qed.

Lemma grid_coordinate_0 : grid_coordinate 0 = -1.
Proof. unfold grid_coordinate. simpl INR. lra. Qed.

Lemma dist_corner : sqrt ((-1) ^ 2 + (-1) ^ 2) / sqrt 2 = 1.
Proof.
  replace ((-1) ^ 2 + (-1) ^ 2) with 2 by lra.
  pose proof sqrt2_neq_0 as H2. field. exact H2.
Qed.

Lemma exp_minus_2_small : exp (- 1 * 2) <= 0.2.
Proof.
  pose proof (exp_ineq1_le 0.5) as Hhalf.
  assert (H1 : exp 1 = exp 0.5 * exp 0.5)
    by (rewrite <- exp_plus; f_equal; lra).
  assert (H2 : exp 2 = exp 1 * exp 1)
    by (rewrite <- exp_plus; f_equal; lra).
  assert (H3 : 2.25 <= exp 1) by (rewrite H1; nra).
  assert (H5 : 5 <= exp 2) by (rewrite H2; nra).
  replace (- 1 * 2) with (Ropp 2) by lra. rewrite exp_Ropp.
  replace 0.2 with (/ 5) by lra.
  apply Rinv_le_contravar; lra.
Qed.

Lemma features_july_evening :
  let f := _datetime_to_features july_evening in
  -1 <= Features.seasonal_sin f <= 0 /\ -1 <= Features.seasonal_cos f <= 0 /\
  Features.diurnal_sin f = -1 /\ Features.diurnal_cos f = 0.
Proof.
  unfold _datetime_to_features. cbv zeta.
  cbn [Features.seasonal_sin Features.seasonal_cos
       Features.diurnal_sin Features.diurnal_cos].
  change (Datetime.tm_yday july_evening - 1)%Z with 200%Z.
  change (Datetime.hour july_evening * 60 + Datetime.minute july_evening)%Z
    with 1080%Z.
  change (24 * 60)%Z with 1440%Z.
  replace (2 * PI * (1080 / 1440)) with (3 * (PI / 2)) by lra.
  rewrite sin_3PI2, cos_3PI2.
  pose proof PI_RGT_0 as Hpi.
  pose proof (SIN_bound (2 * PI * (200 / 365.0))) as [Hs _].
  pose proof (COS_bound (2 * PI * (200 / 365.0))) as [Hc _].
  repeat split; try lra.
  - apply sin_le_0; lra.
  - apply cos_le_0; lra.
Qed.

(** The corner cell of a mountain patch on 20 July, 18:00. *)
Lemma mountain_corner_cell :
  frame_cell 40 (-110) july_evening (grid_coordinate 0, grid_coordinate 0)
  <= 0.085.
Proof.
  unfold frame_cell. cbv zeta.
  destruct features_july_evening as [Hss [Hsc [Hds Hdc]]].
  rewrite Hds, Hdc.
  set (ssin := Features.seasonal_sin (_datetime_to_features july_evening)) in *.
  set (scos := Features.seasonal_cos (_datetime_to_features july_evening)) in *.
  rewrite mountain_elevation_factor.
  change (_determine_region_type 40 (-110)) with MOUNTAIN.
  change (RegionType_eqb MOUNTAIN OCEAN) with false.
  change (RegionType_eqb MOUNTAIN DESERT) with false.
  change (RegionType_eqb MOUNTAIN URBAN) with false.
  cbv iota. cbn [fst snd].
  rewrite grid_coordinate_0, dist_corner.
  unfold pattern_of.
  change (RegionType_eqb MOUNTAIN OCEAN) with false.
  change (RegionType_eqb MOUNTAIN DESERT) with false.
  change (RegionType_eqb MOUNTAIN URBAN) with false.
  cbv iota.
  rewrite (Rmax_left 0.2) by apply exp_minus_2_small.
  unfold clip.
  assert (Hprod : 0.2 * (1 + (0.5 * ssin + 0.2 * scos))
                  * (1 + (0.3 * -1 + 0.1 * 0) * 0.5) <= 0.17) by nra.
  assert (Hclip : Rmin (Rmax (0.2 * (1 + (0.5 * ssin + 0.2 * scos))
                              * (1 + (0.3 * -1 + 0.1 * 0) * 0.5)) 0.1) 1.0
                  <= 0.17).
  { eapply Rle_trans; [apply Rmin_l |]. apply Rmax_lub; lra. }
  lra.
Qed.

(** C3, as stated, fails at both ends.  Over the ocean the elevation factor
    is 1.01, and the cell next to the centre of the patch for latitude 0,
    longitude 10 on 1 January 2025, 00:00 is 1.01, above the clamp bound 1.0.
    On a mountain the elevation factor is 0.5, and the corner cell of the
    patch for latitude 40, longitude -110 on 20 July 2025, 18:00 is at most
    0.085, below the clamp bound 0.1. *)
Lemma frame_within_clamp_fails :
  ~ frame_within_clamp (synthetic_frame 0 10 new_year_midnight) /\
  ~ frame_within_clamp (synthetic_frame 40 (-110) july_evening).
Proof.
  split; intros Hclaim.
  - destruct (frame_cell_In 0 10 new_year_midnight 63 63) as [Hrow Hv];
      [lia | lia |].
    specialize (Hclaim _ _ Hrow Hv).
    rewrite ocean_centre_cell in Hclaim. lra.
  - destruct (frame_cell_In 40 (-110) july_evening 0 0) as [Hrow Hv];
      [lia | lia |].
    specialize (Hclaim _ _ Hrow Hv).
    pose proof mountain_corner_cell as Hcell. lra.
Qed.

Lemma synthetic_frame_elements_witness :
  In (frame_row 0 10 new_year_midnight 63) (synthetic_frame 0 10 new_year_midnight) /\
  In 1.01 (frame_row 0 10 new_year_midnight 63) /\
  0.05 <= 1.01 <= 1.01.
Proof.
  destruct (frame_cell_In 0 10 new_year_midnight 63 63) as [Hrow Hv]; [lia | lia |].
  rewrite ocean_centre_cell in Hv.
  split; [exact Hrow |]. split; [exact Hv |].
  apply (synthetic_frame_elements 0 10 new_year_midnight _ 1.01 Hrow Hv).
Defined.

(* ================================================================== *)
(** * What [predict] computes *)

Lemma regional_base_values_total (region_type : RegionType) :
  dict_index RegionType_eqb regional_base_values region_type "RegionType"
  = Returns (base_values_of region_type).
Proof. destruct region_type; reflexivity. Qed.

Lemma physics_constraints_returns (values : Results.t) (lat lon : Q)
    (dt : Datetime.t) :
  _apply_physics_constraints values lat lon dt
  = Returns (physics_constrained values lat lon).
Proof.
  unfold _apply_physics_constraints, physics_constrained. cbv zeta.
  destruct (RegionType_eqb (_determine_region_type lat lon) URBAN); reflexivity.
Qed.

Section PredictEquation.
Variable strptime : string -> string -> string + Datetime.t.
Variable model_predict : list (list (list R)) -> Outcome (list R * list R).
Variable uniform : R -> R -> Rand R.

(** [predict] written out case by case. *)
Lemma predict_equation (date_str : string) (lat lon : Q)
    (time_str : option string) (g : Rng) :
  predict strptime model_predict uniform date_str lat lon time_str g =
  match strptime (date_str ++ " " ++ time_or_default time_str)%string
                 "%Y%m%d %H:%M" with
  | inl msg => (Returns (error_result (ValueError msg)), g)
  | inr dt =>
    match model_predict (_generate_synthetic_patch lat lon dt) with
    | Raises e => (Returns (error_result e), g)
    | Returns (mean_pred, uncertainty) =>
      match mean_pred with
      | [] => (Returns (error_result (ValueError
                 "zero-size array to reduction operation maximum which has no identity")), g)
      | _ :: _ =>
        let calc := _calculate_enhanced_values uniform
                      (normalized_activity mean_pred)
                      (adjusted_values_of lat lon dt) g in
        (Returns (PredictionResult
                    (physics_constrained (fst calc) lat lon)
                    (metadata_of date_str lat lon time_str dt mean_pred uncertainty)),
         snd calc)
      end
    end
  end.
Proof.
  unfold predict, try_except, predict_body, bind, lift_outcome, lift_rand, ret, raise.
  destruct (strptime _ _) as [msg | dt]; [reflexivity |].
  destruct (model_predict _) as [[mean_pred uncertainty] | e];
    [| destruct e; reflexivity].
  destruct mean_pred as [| v rest]; [reflexivity |].
  rewrite regional_base_values_total.
  unfold adjusted_values_of. cbv zeta.
  destruct (_calculate_enhanced_values _ _ _ g) as [results g'].
  rewrite physics_constraints_returns. reflexivity.
Qed.

(** A call that returns results went through every stage. *)
Lemma predict_returns_inv (date_str : string) (lat lon : Q)
    (time_str : option string) (g g' : Rng) (r : Results.t) (m : Metadata.t) :
  predict strptime model_predict uniform date_str lat lon time_str g
  = (Returns (PredictionResult r m), g') ->
  exists dt mean_pred uncertainty,
    strptime (date_str ++ " " ++ time_or_default time_str)%string "%Y%m%d %H:%M"
    = inr dt /\
    model_predict (_generate_synthetic_patch lat lon dt)
    = Returns (mean_pred, uncertainty) /\
    mean_pred <> [] /\
    r = physics_constrained
          (fst (_calculate_enhanced_values uniform
                  (normalized_activity mean_pred)
                  (adjusted_values_of lat lon dt) g)) lat lon /\
    g' = snd (_calculate_enhanced_values uniform
                (normalized_activity mean_pred)
                (adjusted_values_of lat lon dt) g).
Proof.
  rewrite predict_equation.
  destruct (strptime _ _) as [msg | dt] eqn:Hdt; [discriminate |].
  destruct (model_predict _) as [[mean_pred uncertainty] | e] eqn:Hmodel;
    [| destruct e; discriminate].
  destruct mean_pred as [| v rest]; [discriminate |].
  cbv zeta. intros H. inversion H; subst.
  exists dt, (v :: rest), uncertainty.
  split; [reflexivity |]. split; [exact Hmodel |].
  split; [discriminate |]. split; reflexivity.
Qed.

(** A well-formed request on a working model returns results. *)
Lemma predict_success (date_str : string) (lat lon : Q)
    (time_str : option string) (g : Rng) (dt : Datetime.t)
    (mean_pred uncertainty : list R) :
  strptime (date_str ++ " " ++ time_or_default time_str)%string "%Y%m%d %H:%M"
  = inr dt ->
  model_predict (_generate_synthetic_patch lat lon dt)
  = Returns (mean_pred, uncertainty) ->
  mean_pred <> [] ->
  predict strptime model_predict uniform date_str lat lon time_str g
  = (Returns (PredictionResult
                (physics_constrained
                   (fst (_calculate_enhanced_values uniform
                           (normalized_activity mean_pred)
                           (adjusted_values_of lat lon dt) g)) lat lon)
                (metadata_of date_str lat lon time_str dt mean_pred uncertainty)),
     snd (_calculate_enhanced_values uniform
            (normalized_activity mean_pred)
            (adjusted_values_of lat lon dt) g)).
Proof.
  intros Hdt Hmodel Hne. rewrite predict_equation, Hdt, Hmodel.
  destruct mean_pred; [congruence | reflexivity].
Qed.
End PredictEquation.

(* ================================================================== *)
(** * Noise injection *)

Section NoiseSpec.
Variable uniform : R -> R -> Rand R.
(** An invariant of the generator state and what a draw satisfies under it. *)
Variable Inv : Rng -> Prop.
Variable P : R -> R -> R -> Prop.
Hypothesis uniform_spec :
  forall a b g, Inv g -> P a b (fst (uniform a b g)) /\ Inv (snd (uniform a b g)).

Lemma add_sensor_noise_spec (value rel abs_min : R) (g : Rng) :
  Inv g ->
  noised P value rel abs_min (fst (add_sensor_noise uniform value rel abs_min g)) /\
  Inv (snd (add_sensor_noise uniform value rel abs_min g)).
Proof.
  intros Hg. unfold add_sensor_noise, rand_bind, rand_ret. cbv zeta.
  fold (noise_scale value rel abs_min).
  destruct (uniform_spec (- noise_scale value rel abs_min)
                         (noise_scale value rel abs_min) g Hg) as [Hu Hg'].
  destruct (uniform _ _ g) as [u g']. cbn [fst snd] in *.
  split; [exists u; split; [exact Hu | reflexivity] | exact Hg'].
Qed.

Lemma calculate_enhanced_values_spec (normalized_mean : R)
    (adjusted_values : Values.t) (g : Rng) :
  Inv g ->
  let r := fst (_calculate_enhanced_values uniform normalized_mean adjusted_values g) in
  let scaled field range := exp_scale (field adjusted_values) normalized_mean range in
  let temperature :=
    sigmoid_scale (Values.temperature adjusted_values) normalized_mean 15 5 in
  noised P temperature 0.01 0.1 (BME688.temperature (Results.BME688 r)) /\
  noised P (Rmin 100 (Rmax 10 (Values.humidity adjusted_values + normalized_mean * 50)))
         0.005 0.1 (BME688.humidity (Results.BME688 r)) /\
  noised P (Rmax 950 (Rmin 1050 (Values.pressure adjusted_values - normalized_mean * 5)))
         0.001 0.1 (BME688.pressure (Results.BME688 r)) /\
  noised P (scaled Values.gas_resistance 150000) 0.02 0.1
         (BME688.gas_resistance (Results.BME688 r)) /\
  noised P temperature 0.01 0.1 (Results.MCP9808_temperature r) /\
  noised P (scaled Values.CO2 600) 0.02 1.0 (Results.CO2_value r) /\
  noised P (scaled Values.VOC 400) 0.02 0.5 (Results.VOC_value r) /\
  (exists x, noised P (scaled Values.PM1_0 25) 0.05 0.1 x /\
             Results.PM1_0_value r = Rmax 0 x) /\
  (exists x, noised P (scaled Values.PM2_5 30) 0.05 0.1 x /\
             Results.PM2_5_value r = Rmax 0 x) /\
  (exists x, noised P (scaled Values.PM10 40) 0.05 0.1 x /\
             Results.PM10_value r = Rmax 0 x) /\
  Inv (snd (_calculate_enhanced_values uniform normalized_mean adjusted_values g)).
Proof.
  intros Hg. unfold _calculate_enhanced_values, rand_bind, rand_ret. cbv zeta.
  repeat match goal with
  | Hi : Inv ?s |- context [add_sensor_noise uniform ?v ?rel ?am ?s] =>
      let Hn := fresh "Hn" in
      let Hs := fresh "Hs" in
      destruct (add_sensor_noise_spec v rel am s Hi) as [Hn Hs];
      destruct (add_sensor_noise uniform v rel am s);
      cbn [fst snd] in Hn, Hs; clear Hi
  end.
  cbn [fst snd Results.BME688 BME688.temperature BME688.humidity BME688.pressure
       BME688.gas_resistance Results.MCP9808_temperature Results.CO2_value
       Results.VOC_value Results.PM1_0_value Results.PM2_5_value
       Results.PM10_value].
  repeat (split; [first [assumption | eexists; split; [eassumption | reflexivity]] |]).
  assumption.
Qed.
End NoiseSpec.

(** Any noise strategy at all. *)
Lemma any_uniform_spec (uniform : R -> R -> Rand R) :
  forall a b g, (fun _ : Rng => True) g ->
    (fun _ _ _ : R => True) a b (fst (uniform a b g)) /\
    (fun _ : Rng => True) (snd (uniform a b g)).
Proof. intros; split; exact I. Qed.

(** [random.uniform] patched to return 0. *)
Lemma uniform_mock0_spec :
  forall a b g, (fun _ : Rng => True) g ->
    (fun _ _ u : R => u = 0) a b (fst (uniform_mock0 a b g)) /\
    (fun _ : Rng => True) (snd (uniform_mock0 a b g)).
Proof. intros; split; [reflexivity | exact I]. Qed.



(* ================================================================== *)
(** * Properties of the final result *)

Lemma calibration_nonneg (urban : bool) (a b : Q) :
  (0 <= a)%Q -> (0 <= b)%Q -> 0 <= Q2R (if urban then a else b).
Proof.
  intros Ha Hb. replace 0 with (Q2R 0) by (unfold Q2R; simpl; lra).
  apply Qle_Rle. destruct urban; assumption.
Qed.

(** C6.  Whatever the noise strategy returns, the particulate values of a
    result returned by [predict] are not negative: each is floored at 0
    after noise and then multiplied by the calibration factor 1.3 or 1.0. *)
Theorem particulates_never_negative
    (strptime : string -> string -> string + Datetime.t)
    (model_predict : list (list (list R)) -> Outcome (list R * list R))
    (uniform : R -> R -> Rand R)
    (date_str : string) (lat lon : Q) (time_str : option string)
    (g g' : Rng) (r : Results.t) (m : Metadata.t) :
  predict strptime model_predict uniform date_str lat lon time_str g
  = (Returns (PredictionResult r m), g') ->
  0 <= Results.PM1_0_value r /\
  0 <= Results.PM2_5_value r /\
  0 <= Results.PM10_value r.
Proof.
  intros Hcall.
  apply predict_returns_inv in Hcall.
  destruct Hcall as [dt [mean_pred [unc [_ [_ [_ [-> _]]]]]]].
  pose proof (calculate_enhanced_values_spec uniform _ _ (any_uniform_spec uniform)
                (normalized_activity mean_pred) (adjusted_values_of lat lon dt) g I)
    as Hspec.
  cbv zeta in Hspec.
  destruct Hspec as [_ [_ [_ [_ [_ [_ [_ [[x1 [_ H1]] [[x2 [_ H2]] [[x3 [_ H3]] _]]]]]]]]]].
  unfold physics_constrained. cbv zeta.
  cbn [Results.PM1_0_value Results.PM2_5_value Results.PM10_value].
  rewrite H1, H2, H3.
  pose proof (calibration_nonneg
                (RegionType_eqb (_determine_region_type lat lon) URBAN) 1.3 1.0
                ltac:(discriminate) ltac:(discriminate)) as Hcal.
  pose proof (Rmax_l 0 x1). pose proof (Rmax_l 0 x2). pose proof (Rmax_l 0 x3).
  repeat split; apply Rmult_le_pos; assumption.
Qed.

(** C10.  With [random.uniform] patched to return 0, the two temperatures
    of a result returned by [predict] are equal: both are
    [sigmoid_scale(adjusted temperature, activity, 15, 5)] less the same
    elevation term. *)
Theorem temperatures_agree_without_noise
    (strptime : string -> string -> string + Datetime.t)
    (model_predict : list (list (list R)) -> Outcome (list R * list R))
    (date_str : string) (lat lon : Q) (time_str : option string)
    (g g' : Rng) (r : Results.t) (m : Metadata.t) :
  predict strptime model_predict uniform_mock0 date_str lat lon time_str g
  = (Returns (PredictionResult r m), g') ->
  BME688.temperature (Results.BME688 r) = Results.MCP9808_temperature r /\
  exists dt mean_pred,
    BME688.temperature (Results.BME688 r)
    = sigmoid_scale (Values.temperature (adjusted_values_of lat lon dt))
                    (normalized_activity mean_pred) 15 5
      - elevation_factor_of (_get_elevation lat lon) * 2.0.
Proof.
  intros Hcall.
  apply predict_returns_inv in Hcall.
  destruct Hcall as [dt [mean_pred [unc [_ [_ [_ [-> _]]]]]]].
  pose proof (calculate_enhanced_values_spec uniform_mock0 _ _ uniform_mock0_spec
                (normalized_activity mean_pred) (adjusted_values_of lat lon dt) g I)
    as Hspec.
  cbv zeta in Hspec.
  destruct Hspec as [[u1 [Hu1 H1]] [_ [_ [_ [[u5 [Hu5 H5]] _]]]]].
  unfold physics_constrained. cbv zeta.
  cbn [Results.BME688 BME688.temperature Results.MCP9808_temperature].
  rewrite H1, H5, Hu1, Hu5. split; [reflexivity |].
  exists dt, mean_pred. lra.
Qed.

Lemma calculate_enhanced_values_mock0 (normalized_mean : R)
    (adjusted_values : Values.t) (g1 g2 : Rng) :
  fst (_calculate_enhanced_values uniform_mock0 normalized_mean adjusted_values g1)
  = fst (_calculate_enhanced_values uniform_mock0 normalized_mean adjusted_values g2)
  /\ snd (_calculate_enhanced_values uniform_mock0 normalized_mean adjusted_values g1)
     = g1.
Proof. split; reflexivity. Qed.

(** C5.  With [random.uniform] patched to return 0 and the model a fixed
    function, what [predict] returns depends on its four inputs only:
    whatever the states of the random generator at the two calls, the two
    outputs are equal, and the call leaves the generator as it found it. *)
Theorem predict_deterministic_without_noise
    (strptime : string -> string -> string + Datetime.t)
    (model_predict : list (list (list R)) -> Outcome (list R * list R))
    (date_str : string) (lat lon : Q) (time_str : option string)
    (g1 g2 : Rng) :
  fst (predict strptime model_predict uniform_mock0 date_str lat lon time_str g1)
  = fst (predict strptime model_predict uniform_mock0 date_str lat lon time_str g2)
  /\ snd (predict strptime model_predict uniform_mock0 date_str lat lon time_str g1)
     = g1.
Proof.
  rewrite !predict_equation.
  destruct (strptime _ _) as [msg | dt]; [split; reflexivity |].
  destruct (model_predict _) as [[mean_pred unc] | e]; [| split; reflexivity].
  destruct mean_pred as [| v rest]; [split; reflexivity |].
  cbv zeta. cbn [fst snd].
  destruct (calculate_enhanced_values_mock0 (normalized_activity (v :: rest))
              (adjusted_values_of lat lon dt) g1 g2) as [Hfst Hsnd].
  rewrite Hfst, Hsnd. split; reflexivity.
Qed.

(** C9.  [predict] never raises.  When the date/time text does not parse it
    returns the dictionary with ['error'] (the parser's message) and
    ['message'] "Invalid date/time format or input values", leaving the
    generator untouched; whenever a statement of its body raises an
    exception [e] it returns a dictionary with ['error'] [str(e)] and a
    ['message']. *)
Theorem predict_returns_tagged_error
    (strptime : string -> string -> string + Datetime.t)
    (model_predict : list (list (list R)) -> Outcome (list R * list R))
    (uniform : R -> R -> Rand R)
    (date_str : string) (lat lon : Q) (time_str : option string) (g : Rng) :
  (forall msg,
     strptime (date_str ++ " " ++ time_or_default time_str)%string "%Y%m%d %H:%M"
     = inl msg ->
     predict strptime model_predict uniform date_str lat lon time_str g
     = (Returns (ErrorResult msg "Invalid date/time format or input values"), g)) /\
  (forall e g1,
     predict_body strptime model_predict uniform date_str lat lon time_str g
     = (Raises e, g1) ->
     exists message,
       predict strptime model_predict uniform date_str lat lon time_str g
       = (Returns (ErrorResult (str e) message), g1)) /\
  (exists p g1,
     predict strptime model_predict uniform date_str lat lon time_str g
     = (Returns p, g1)).
Proof.
  split; [| split].
  - intros msg Hmsg. rewrite predict_equation, Hmsg. reflexivity.
  - intros e g1 Hbody. unfold predict, try_except. rewrite Hbody.
    destruct e; eexists; reflexivity.
  - unfold predict, try_except.
    destruct (predict_body _ _ _ _ _ _ _ g) as [[p | e] g1].
    + exists p, g1. reflexivity.
    + destruct e; eexists; eexists; reflexivity.
Qed.





Lemma example_call (uniform : R -> R -> Rand R) (lat lon : Q)
    (time_str : string) (dt : Datetime.t) (g : Rng) :
  Fixtures.strptime_fixed_width
    ("20250615" ++ " " ++ time_or_default (Some time_str))%string "%Y%m%d %H:%M"
  = inr dt ->
  predict Fixtures.strptime_fixed_width (Fixtures.constant_model 0 0) uniform
          "20250615" lat lon (Some time_str) g
  = (Returns (PredictionResult (example_results uniform lat lon dt g)
                               (example_metadata lat lon time_str dt)),
     snd (_calculate_enhanced_values uniform (normalized_activity constant_field)
            (adjusted_values_of lat lon dt) g)).
Proof.
  intros Hparse. apply predict_success.
  - exact Hparse.
  - reflexivity.
  - unfold constant_field. change (128 * 128)%nat with (S (128 * 128 - 1)).
    discriminate.
Qed.

Lemma parse_june_afternoon :
  Fixtures.strptime_fixed_width
    ("20250615" ++ " " ++ time_or_default (Some "14:00"))%string "%Y%m%d %H:%M"
  = inr june_afternoon.
Proof. vm_compute. reflexivity. Qed.















Lemma unit_draws_half : unit_draws Fixtures.rng_half.
Proof. intros n. unfold Fixtures.rng_half. lra. Qed.


Lemma particulates_never_negative_witness :
  0 <= Results.PM1_0_value (example_results random_uniform 40.7 (-74.0) june_afternoon Fixtures.rng_zero) /\
  0 <= Results.PM2_5_value (example_results random_uniform 40.7 (-74.0) june_afternoon Fixtures.rng_zero) /\
  0 <= Results.PM10_value (example_results random_uniform 40.7 (-74.0) june_afternoon Fixtures.rng_zero).
Proof.
  eapply (particulates_never_negative
            Fixtures.strptime_fixed_width (Fixtures.constant_model 0 0) random_uniform
            "20250615" 40.7 (-74.0) (Some "14:00"%string) Fixtures.rng_zero).
  apply example_call, parse_june_afternoon.
Defined.

Lemma temperatures_agree_without_noise_witness :
  BME688.temperature
    (Results.BME688 (example_results uniform_mock0 40.7 (-74.0) june_afternoon Fixtures.rng_zero))
  = Results.MCP9808_temperature
      (example_results uniform_mock0 40.7 (-74.0) june_afternoon Fixtures.rng_zero).
Proof.
  eapply proj1.
  eapply (temperatures_agree_without_noise
            Fixtures.strptime_fixed_width (Fixtures.constant_model 0 0)
            "20250615" 40.7 (-74.0) (Some "14:00"%string) Fixtures.rng_zero).
  apply example_call, parse_june_afternoon.
Defined.

Lemma predict_returns_tagged_error_witness :
  predict Fixtures.strptime_fixed_width (Fixtures.constant_model 0 0) random_uniform
          "2025-06-15" 40.7 (-74.0) (Some "14:00"%string) Fixtures.rng_zero
  = (Returns (ErrorResult "time data does not match format %Y%m%d %H:%M"
                          "Invalid date/time format or input values"),
     Fixtures.rng_zero).
Proof.
  apply (predict_returns_tagged_error
           Fixtures.strptime_fixed_width (Fixtures.constant_model 0 0) random_uniform
           "2025-06-15" 40.7 (-74.0) (Some "14:00"%string) Fixtures.rng_zero).
  vm_compute. reflexivity.
Defined.

(* ================================================================== *)
(** * Further properties of the region classifier *)

Lemma ltb_true_iff (x y : Q) : Cascade.ltb x y = true <-> (x < y)%Q.
Proof.
  unfold Cascade.ltb. rewrite negb_true_iff. split.
  - intros H. apply Qnot_le_lt. intros Hle. apply Qle_bool_iff in Hle. congruence.
  - intros H. destruct (Qle_bool y x) eqn:E; [| reflexivity].
    apply Qle_bool_iff in E. exfalso. apply (Qlt_not_le _ _ H E).
Qed.

Lemma ltb_false_iff (x y : Q) : Cascade.ltb x y = false <-> (y <= x)%Q.
Proof.
  unfold Cascade.ltb. rewrite negb_false_iff. apply Qle_bool_iff.
Qed.

(** Settles every comparison of the goal that the hypotheses decide. *)
Ltac decide_ltb :=
  repeat match goal with
  | |- context [Cascade.ltb ?a ?b] =>
      first [ rewrite (proj2 (ltb_true_iff a b)) by Lqa.lra
            | rewrite (proj2 (ltb_false_iff a b)) by Lqa.lra ]
  end.

Ltac qabs_cases x :=
  let H := fresh "Habs" in
  destruct (Qlt_le_dec x 0) as [H | H];
  [ pose proof (Qabs_neg x (Qlt_le_weak _ _ H)) | pose proof (Qabs_pos x H) ].

Ltac unfold_cascade :=
  unfold _determine_region_type, Cascade.ocean_rule, Cascade.desert_rule,
    Cascade.forest_tropical_rule, Cascade.forest_temperate_rule,
    Cascade.tundra_rule, Cascade.mountain_rule, Cascade.coastal_rule,
    Cascade.agricultural_rule, Cascade.between.

(** X1.  Beyond 60 degrees of latitude, north or south, every point is
    classified TUNDRA, whatever its longitude: no earlier rule of the cascade
    reaches that far. *)
Theorem polar_latitudes_are_tundra (lat lon : Q) :
  (60 < lat \/ lat < -60)%Q -> _determine_region_type lat lon = TUNDRA.
Proof.
  intros Hlat. unfold_cascade.
  qabs_cases lat; destruct Hlat as [Hlat | Hlat]; try (exfalso; Lqa.lra);
    decide_ltb; reflexivity.
Qed.

Lemma polar_latitudes_are_tundra_witness :
  (60 < 75 \/ 75 < -60)%Q /\ _determine_region_type 75 120 = TUNDRA.
Proof.
  split; [left; reflexivity |].
  apply (polar_latitudes_are_tundra 75 120). left. reflexivity.
Defined.

Lemma in_city_box_iff (lat lon : Q) (city_lat city_lon : Q) :
  Cascade.in_city_box lat lon (city_lat, city_lon) = true <->
  (city_lat - 1 < lat /\ lat < city_lat + 1 /\
   city_lon - 1.5 < lon /\ lon < city_lon + 1.5)%Q.
Proof.
  unfold Cascade.in_city_box. rewrite andb_true_iff, !ltb_true_iff.
  rewrite !Qabs_Qlt_condition. split.
  - intros [[H1 H2] [H3 H4]]. repeat split; Lqa.lra.
  - intros [H1 [H2 [H3 H4]]]. repeat split; Lqa.lra.
Qed.

(** The boxes of London, Tokyo, Mumbai and Rome lie inside bands that are
    tested before the city loop. *)
Lemma shadowed_city_boxes (lat lon : Q) (city : Q * Q) :
  In city [(51.5, -0.1); (35.7, 139.7); (19.1, 72.9); (41.9, 12.5)]%Q ->
  Cascade.in_city_box lat lon city = true ->
  Cascade.ocean_rule lat lon = true \/
  Cascade.forest_temperate_rule lat lon = true.
Proof.
  intros Hcity Hbox.
  destruct Hcity as [<- | [<- | [<- | [<- | []]]]];
    apply in_city_box_iff in Hbox; destruct Hbox as [H1 [H2 [H3 H4]]].
  - right. unfold Cascade.forest_temperate_rule, Cascade.between.
    decide_ltb. reflexivity.
  - right. unfold Cascade.forest_temperate_rule, Cascade.between.
    decide_ltb. reflexivity.
  - left. unfold Cascade.ocean_rule, Cascade.between.
    qabs_cases lat; try (exfalso; Lqa.lra). decide_ltb. reflexivity.
  - right. unfold Cascade.forest_temperate_rule, Cascade.between.
    decide_ltb. reflexivity.
Qed.

Lemma classified_urban_inv (lat lon : Q) :
  _determine_region_type lat lon = URBAN ->
  Cascade.ocean_rule lat lon = false /\
  Cascade.forest_temperate_rule lat lon = false /\
  Cascade.urban_rule lat lon = true.
Proof.
  unfold _determine_region_type.
  destruct (Cascade.ocean_rule lat lon); [discriminate |].
  destruct (Cascade.desert_rule lat lon); [discriminate |].
  destruct (Cascade.forest_tropical_rule lat lon); [discriminate |].
  destruct (Cascade.forest_temperate_rule lat lon); [discriminate |].
  destruct (Cascade.tundra_rule lat lon); [discriminate |].
  destruct (Cascade.mountain_rule lat lon); [discriminate |].
  destruct (Cascade.coastal_rule lat lon); [discriminate |].
  destruct (Cascade.urban_rule lat lon); [auto |].
  destruct (Cascade.agricultural_rule lat lon); discriminate.
Qed.

(** X2.  A point classified URBAN lies in the box of one of six cities of
    [major_cities]: (40.7, -74.0), (34.1, -118.2), (-23.5, -46.6),
    (30.0, 31.2), (39.9, 116.4), (55.8, 37.6).  The boxes of the other four,
    (51.5, -0.1), (35.7, 139.7), (19.1, 72.9) and (41.9, 12.5), never produce
    URBAN: they lie wholly inside the ocean or temperate-forest bands. *)
Theorem urban_only_in_unshadowed_city_boxes (lat lon : Q) :
  _determine_region_type lat lon = URBAN ->
  (exists city,
     In city [(40.7, -74.0); (34.1, -118.2); (-23.5, -46.6); (30.0, 31.2);
              (39.9, 116.4); (55.8, 37.6)]%Q /\
     Cascade.in_city_box lat lon city = true) /\
  (forall city,
     In city [(51.5, -0.1); (35.7, 139.7); (19.1, 72.9); (41.9, 12.5)]%Q ->
     Cascade.in_city_box lat lon city = false).
Proof.
  intros Hurban.
  destruct (classified_urban_inv lat lon Hurban) as [Hocean [Htemp Hrule]].
  assert (Hdead : forall city,
    In city [(51.5, -0.1); (35.7, 139.7); (19.1, 72.9); (41.9, 12.5)]%Q ->
    Cascade.in_city_box lat lon city = false).
  { intros city Hcity.
    destruct (Cascade.in_city_box lat lon city) eqn:Hbox; [| reflexivity].
    destruct (shadowed_city_boxes lat lon city Hcity Hbox) as [H | H]; congruence. }
  split; [| exact Hdead].
  unfold Cascade.urban_rule in Hrule. apply existsb_exists in Hrule.
  destruct Hrule as [city [Hin Hbox]].
  exists city. split; [| exact Hbox].
  assert (Hlive : ~ In city [(51.5, -0.1); (35.7, 139.7); (19.1, 72.9); (41.9, 12.5)]%Q).
  { intros Hcity. rewrite (Hdead city Hcity) in Hbox. discriminate. }
  unfold Cascade.major_cities in Hin. simpl in Hin. simpl in Hlive.
  simpl. intuition.
Qed.

Lemma urban_only_in_unshadowed_city_boxes_witness :
  _determine_region_type 30.0 31.2 = URBAN /\
  exists city,
    In city [(40.7, -74.0); (34.1, -118.2); (-23.5, -46.6); (30.0, 31.2);
             (39.9, 116.4); (55.8, 37.6)]%Q /\
    Cascade.in_city_box 30.0 31.2 city = true.
Proof.
  split; [vm_compute; reflexivity |].
  apply (urban_only_in_unshadowed_city_boxes 30.0 31.2).
  vm_compute. reflexivity.
Defined.

(** X3.  Every point with 45 < lat < 55 and -5 < lon < 30 is classified
    FOREST_TEMPERATE.  The band contains the fourth mountain band
    (45 < lat < 50, 5 < lon < 15) and is the second agricultural band, so
    neither of these two tests ever decides a result. *)
Theorem european_band_is_temperate_forest (lat lon : Q) :
  (45 < lat)%Q -> (lat < 55)%Q -> (-5 < lon)%Q -> (lon < 30)%Q ->
  _determine_region_type lat lon = FOREST_TEMPERATE /\
  Cascade.agricultural_rule lat lon = true /\
  ((lat < 50)%Q -> (5 < lon)%Q -> (lon < 15)%Q ->
   Cascade.mountain_rule lat lon = true).
Proof.
  intros H1 H2 H3 H4. split; [| split].
  - unfold_cascade.
    qabs_cases lat; try (exfalso; Lqa.lra). decide_ltb. reflexivity.
  - unfold Cascade.agricultural_rule, Cascade.between.
    decide_ltb. cbn. rewrite ?orb_true_r. reflexivity.
  - intros H5 H6 H7. unfold Cascade.mountain_rule, Cascade.between.
    decide_ltb. reflexivity.
Qed.

Lemma european_band_is_temperate_forest_witness :
  (45 < 47)%Q /\ (47 < 55)%Q /\ (-5 < 10)%Q /\ (10 < 30)%Q /\
  _determine_region_type 47 10 = FOREST_TEMPERATE.
Proof.
  repeat (split; [reflexivity |]).
  apply (european_band_is_temperate_forest 47 10); reflexivity.
Defined.

(** X4.  Every point with |lat| < 30 and 80 < |lon| < 100 is classified
    OCEAN: the third alternative of the coastal test holds there, but the
    ocean bands 60 < lon < 100 and -140 < lon < -60 are tested first. *)
Theorem low_latitude_coastal_band_is_ocean (lat lon : Q) :
  (Qabs lat < 30)%Q -> (80 < Qabs lon)%Q -> (Qabs lon < 100)%Q ->
  _determine_region_type lat lon = OCEAN /\
  Cascade.coastal_rule lat lon = true.
Proof.
  intros H1 H2 H3. split.
  - unfold_cascade.
    qabs_cases lon; decide_ltb; reflexivity.
  - unfold Cascade.coastal_rule. decide_ltb. cbn. rewrite ?orb_true_r. reflexivity.
Qed.

Lemma low_latitude_coastal_band_is_ocean_witness :
  (Qabs 10 < 30)%Q /\ (80 < Qabs (-90))%Q /\ (Qabs (-90) < 100)%Q /\
  _determine_region_type 10 (-90) = OCEAN.
Proof.
  repeat (split; [reflexivity |]).
  apply (low_latitude_coastal_band_is_ocean 10 (-90)); reflexivity.
Defined.

(* ================================================================== *)
(** * Further properties of the temporal features and the patch *)

(** X5.  The season label is decided by the month alone and the time-of-day
    label by the hour alone, each label for exactly one range: spring 3-5,
    summer 6-8, fall 9-11, winter otherwise; morning 5-10, afternoon 11-15,
    evening 16-20, night otherwise. *)
Theorem season_and_time_of_day_labels (dt : Datetime.t) :
  let f := _datetime_to_features dt in
  let m := Datetime.month dt in
  let h := Datetime.hour dt in
  (Features.season f = "spring" <-> (3 <= m <= 5)%Z) /\
  (Features.season f = "summer" <-> (6 <= m <= 8)%Z) /\
  (Features.season f = "fall" <-> (9 <= m <= 11)%Z) /\
  (Features.season f = "winter" <-> (m < 3 \/ 11 < m)%Z) /\
  (Features.time_of_day f = "morning" <-> (5 <= h < 11)%Z) /\
  (Features.time_of_day f = "afternoon" <-> (11 <= h < 16)%Z) /\
  (Features.time_of_day f = "evening" <-> (16 <= h < 21)%Z) /\
  (Features.time_of_day f = "night" <-> (h < 5 \/ 21 <= h)%Z).
Proof.
  unfold _datetime_to_features. cbv zeta.
  cbn [Features.season Features.time_of_day].
  repeat apply conj;
  repeat match goal with
  | |- context [(?a <=? ?b)%Z] => destruct (Z.leb_spec a b)
  | |- context [(?a <? ?b)%Z] => destruct (Z.ltb_spec a b)
  end; cbn [andb];
  intros; try discriminate; try lia; try reflexivity.
Qed.

Lemma tm_yday_range (dt : Datetime.t) :
  valid_date dt ->
  (1 <= Datetime.tm_yday dt <= 366)%Z /\
  (Datetime.is_leap (Datetime.year dt) = false -> Datetime.tm_yday dt <= 365)%Z.
Proof.
  intros [Hm Hd]. unfold Datetime.tm_yday, Datetime.days_before_month.
  unfold Fixtures.days_in_month in Hd.
  destruct dt as [y m d h mi]. cbn [Datetime.year Datetime.month Datetime.day] in *.
  assert (Hcases : (m = 1 \/ m = 2 \/ m = 3 \/ m = 4 \/ m = 5 \/ m = 6 \/ m = 7
                    \/ m = 8 \/ m = 9 \/ m = 10 \/ m = 11 \/ m = 12)%Z) by lia.
  destruct (Datetime.is_leap y);
    repeat (destruct Hcases as [-> | Hcases]); try subst m;
    match goal with
    | |- context [nth ?n ?l ?d] =>
        let v := eval vm_compute in (nth n l d) in change (nth n l d) with v
    end;
    match goal with
    | |- context [(2 <? ?m)%Z] =>
        let v := eval vm_compute in (2 <? m)%Z in change (2 <? m)%Z with v
    end;
    repeat match type of Hd with
    | context [(?a =? ?b)%Z] =>
        let v := eval vm_compute in (a =? b)%Z in change (a =? b)%Z with v in Hd
    end;
    cbn [andb orb] in Hd |- *; cbv iota in Hd |- *;
    (split; [lia | intros; try discriminate; lia]).
Qed.

(** X6.  For every valid calendar date the year progress lies in [0, 1]; it
    stays below 1 in a common year and is exactly 1 on day 366 of a leap
    year.  Both cyclic encodings are points of the unit circle. *)
Theorem cyclic_features_ranges (dt : Datetime.t) :
  valid_date dt ->
  let f := _datetime_to_features dt in
  0 <= Features.year_progress f <= 1 /\
  (Datetime.is_leap (Datetime.year dt) = false -> Features.year_progress f < 1) /\
  (Datetime.tm_yday dt = 366%Z -> Features.year_progress f = 1) /\
  (Features.seasonal_sin f)² + (Features.seasonal_cos f)² = 1 /\
  (Features.diurnal_sin f)² + (Features.diurnal_cos f)² = 1.
Proof.
  intros Hvalid. destruct (tm_yday_range dt Hvalid) as [[Hlo Hhi] Hcommon].
  unfold _datetime_to_features. cbv zeta.
  cbn [Features.year_progress Features.seasonal_sin Features.seasonal_cos
       Features.diurnal_sin Features.diurnal_cos].
  assert (H0 : 0 <= IZR (Datetime.tm_yday dt - 1)) by (apply IZR_le; lia).
  assert (H1 : IZR (Datetime.tm_yday dt - 1) <= 365) by (apply IZR_le; lia).
  split; [split; lra |]. split; [| split; [| split; apply sin2_cos2]].
  - intros Hleap. specialize (Hcommon Hleap).
    assert (IZR (Datetime.tm_yday dt - 1) <= 364) by (apply IZR_le; lia). lra.
  - intros ->. change (366 - 1)%Z with 365%Z. lra.
Qed.

Lemma cyclic_features_ranges_witness :
  valid_date (Datetime.mk 2024 12 31 23 59) /\
  Features.year_progress (_datetime_to_features (Datetime.mk 2024 12 31 23 59)) = 1.
Proof.
  assert (Hvalid : valid_date (Datetime.mk 2024 12 31 23 59)).
  { unfold valid_date. cbn. lia. }
  split; [exact Hvalid |].
  apply (cyclic_features_ranges (Datetime.mk 2024 12 31 23 59) Hvalid).
  vm_compute. reflexivity.
Defined.

(** X7.  The tensor handed to the model has three frames of 128 rows of 128
    values, and every value lies in [0.0425, 1.01]: the clamped field times
    the elevation factor (0.5 to 1.01) times the frame weight (0.85, 0.93
    or 1). *)
Theorem synthetic_patch_shape_and_range (lat lon : Q) (dt : Datetime.t) :
  let patch := _generate_synthetic_patch lat lon dt in
  List.length patch = 3%nat /\
  Forall (fun frame =>
            List.length frame = 128%nat /\
            Forall (fun row =>
                      List.length row = 128%nat /\
                      Forall (fun v => 0.0425 <= v <= 1.01) row) frame) patch.
Proof.
  cbv zeta. unfold _generate_synthetic_patch. cbv zeta.
  split; [reflexivity |].
  rewrite synthetic_frame_cells.
  set (grid := meshgrid (linspace (-1) 1 128) (linspace (-1) 1 128)).
  assert (Hgrid : List.length grid = 128%nat /\
                  Forall (fun row => List.length row = 128%nat) grid).
  { unfold grid, meshgrid, linspace. rewrite !length_map, length_seq.
    split; [reflexivity |]. apply Forall_map, Forall_forall. intros y _.
    rewrite !length_map, length_seq. reflexivity. }
  destruct Hgrid as [Hlen Hrows].
  assert (Hcell : forall p, 0.05 <= frame_cell lat lon dt p <= 1.01).
  { intros p. unfold frame_cell. cbv zeta.
    match goal with
    | |- context [clip ?x 0.1 1.0] =>
        pose proof (clip_bounds x 0.1 1.0 ltac:(lra)) as Hc;
        set (c := clip x 0.1 1.0) in *
    end.
    pose proof (elevation_factor_range lat lon) as Hef.
    set (ef := elevation_factor_of (_get_elevation lat lon)) in *.
    split; nra. }
  assert (Hframe : forall k, 0.85 <= k <= 1 ->
    List.length (map2d (fun v => v * k) (map2d (frame_cell lat lon dt) grid)) = 128%nat /\
    Forall (fun row => List.length row = 128%nat /\
                       Forall (fun v => 0.0425 <= v <= 1.01) row)
           (map2d (fun v => v * k) (map2d (frame_cell lat lon dt) grid))).
  { intros k Hk. rewrite map2d_map2d. unfold map2d.
    rewrite length_map. split; [exact Hlen |].
    apply Forall_map. eapply Forall_impl; [| exact Hrows].
    intros row Hrow. cbn. rewrite length_map. split; [exact Hrow |].
    apply Forall_map, Forall_forall. intros p _.
    pose proof (Hcell p). cbn. split; nra. }
  assert (Hfinal :
    List.length (map2d (frame_cell lat lon dt) grid) = 128%nat /\
    Forall (fun row => List.length row = 128%nat /\
                       Forall (fun v => 0.0425 <= v <= 1.01) row)
           (map2d (frame_cell lat lon dt) grid)).
  { unfold map2d. rewrite length_map. split; [exact Hlen |].
    apply Forall_map. eapply Forall_impl; [| exact Hrows].
    intros row Hrow. cbn. rewrite length_map. split; [exact Hrow |].
    apply Forall_map, Forall_forall. intros p _.
    pose proof (Hcell p). cbn. lra. }
  constructor; [apply Hframe; lra |].
  constructor; [apply Hframe; lra |].
  constructor; [exact Hfinal | constructor].
Qed.

(** X8.  Two points that the classifier puts in the same region get the
    same input tensor, the same adjusted baseline and, from the same state of
    the random generator, the same sensor values: the engine does not vary
    within a region. *)
Theorem predict_depends_on_region_only
    (strptime : string -> string -> string + Datetime.t)
    (model_predict : list (list (list R)) -> Outcome (list R * list R))
    (uniform : R -> R -> Rand R)
    (date_str : string) (lat1 lon1 lat2 lon2 : Q) (time_str : option string)
    (g : Rng) :
  _determine_region_type lat1 lon1 = _determine_region_type lat2 lon2 ->
  (forall dt, _generate_synthetic_patch lat1 lon1 dt
              = _generate_synthetic_patch lat2 lon2 dt) /\
  match predict strptime model_predict uniform date_str lat1 lon1 time_str g,
        predict strptime model_predict uniform date_str lat2 lon2 time_str g with
  | (Returns (PredictionResult r1 _), g1), (Returns (PredictionResult r2 _), g2) =>
      r1 = r2 /\ g1 = g2
  | (Returns (ErrorResult e1 m1), g1), (Returns (ErrorResult e2 m2), g2) =>
      e1 = e2 /\ m1 = m2 /\ g1 = g2
  | _, _ => False
  end.
Proof.
  intros Hregion.
  assert (Hpatch : forall dt, _generate_synthetic_patch lat1 lon1 dt
                              = _generate_synthetic_patch lat2 lon2 dt).
  { intros dt. unfold _generate_synthetic_patch, synthetic_frame, _get_elevation.
    rewrite Hregion. reflexivity. }
  split; [exact Hpatch |].
  rewrite !predict_equation.
  destruct (strptime _ _) as [msg | dt]; [cbn; auto |].
  rewrite (Hpatch dt).
  destruct (model_predict _) as [[mean_pred unc] | e]; [| destruct e; cbn; auto].
  destruct mean_pred as [| v rest]; [cbn; auto |].
  cbv zeta.
  assert (Hadj : adjusted_values_of lat1 lon1 dt = adjusted_values_of lat2 lon2 dt).
  { unfold adjusted_values_of. rewrite Hregion. reflexivity. }
  rewrite Hadj.
  split; [| reflexivity].
  unfold physics_constrained, _get_elevation. rewrite Hregion. reflexivity.
Qed.

Lemma predict_depends_on_region_only_witness :
  _determine_region_type 70 0 = _determine_region_type 75 120 /\
  _generate_synthetic_patch 70 0 june_afternoon
  = _generate_synthetic_patch 75 120 june_afternoon.
Proof.
  assert (Hregion : _determine_region_type 70 0 = _determine_region_type 75 120)
    by (vm_compute; reflexivity).
  split; [exact Hregion |].
  exact (proj1 (predict_depends_on_region_only
                  Fixtures.strptime_fixed_width (Fixtures.constant_model 0 0)
                  random_uniform "20250615" 70 0 75 120 None Fixtures.rng_half
                  Hregion)
               june_afternoon).
Defined.

(* ================================================================== *)
(** * Grid indices *)

Lemma clamp_cases (lo hi x : Q) :
  (lo <= hi)%Q ->
  (x < lo /\ py_max (py_min x hi) lo = lo)%Q \/
  (lo <= x <= hi /\ py_max (py_min x hi) lo = x)%Q \/
  (hi < x /\ py_max (py_min x hi) lo = hi)%Q.
Proof.
  intros Hle. unfold py_max, py_min.
  destruct (Cascade.ltb hi x) eqn:E1.
  - apply ltb_true_iff in E1. right; right.
    destruct (Cascade.ltb hi lo) eqn:E2;
      [apply ltb_true_iff in E2; exfalso; Lqa.lra | auto].
  - apply ltb_false_iff in E1.
    destruct (Cascade.ltb x lo) eqn:E2.
    + apply ltb_true_iff in E2. left. auto.
    + apply ltb_false_iff in E2. right; left. auto.
Qed.

Lemma clamp_range (lo hi x : Q) :
  (lo <= hi)%Q -> (lo <= py_max (py_min x hi) lo <= hi)%Q.
Proof.
  intros Hle.
  destruct (clamp_cases lo hi x Hle) as [[H ->] | [[H ->] | [H ->]]];
    split; Lqa.lra.
Qed.

Lemma py_int_range (x : Q) (n : Z) :
  (0 <= x)%Q -> (x <= inject_Z n)%Q -> (0 <= py_int x <= n)%Z.
Proof.
  intros H0 Hn. unfold py_int.
  apply Qle_bool_iff in H0 as Hb. rewrite Hb.
  split.
  - change 0%Z with (Qround.Qfloor 0). apply Qround.Qfloor_resp_le. exact H0.
  - rewrite <- (Qround.Qfloor_Z n). apply Qround.Qfloor_resp_le. exact Hn.
Qed.

Lemma py_int_monotone (x y : Q) :
  (0 <= x)%Q -> (x <= y)%Q -> (py_int x <= py_int y)%Z.
Proof.
  intros H0 Hxy. unfold py_int.
  assert (H0y : (0 <= y)%Q) by Lqa.lra.
  apply Qle_bool_iff in H0. apply Qle_bool_iff in H0y. rewrite H0, H0y.
  apply Qround.Qfloor_resp_le. exact Hxy.
Qed.

Lemma py_int_of_integer (x : Q) (n : Z) :
  (x == inject_Z n)%Q -> (0 <= n)%Z -> py_int x = n.
Proof.
  intros Hx Hn. unfold py_int.
  assert (Hb : Qle_bool 0 x = true).
  { apply Qle_bool_iff. rewrite Hx. unfold Qle. simpl. lia. }
  rewrite Hb. rewrite Hx. apply Qround.Qfloor_Z.
Qed.

(** X9.  For every latitude and longitude, in range or not, the grid indices
    lie within the 361 x 577 grid: 0 <= lat_idx <= 360 and 0 <= lon_idx <= 576.
    Coordinates beyond the range are taken to its edge: latitude 90 or more
    gives row 0, -90 or less row 360, longitude -180 or less column 0, 180 or
    more column 576. *)
Theorem merra_index_within_grid (lat lon : Q) :
  let '(lat_idx, lon_idx) := _latlon_to_merra_index lat lon in
  ((0 <= lat_idx <= 360)%Z /\ (0 <= lon_idx <= 576)%Z) /\
  ((lat_max <= lat)%Q -> lat_idx = 0%Z) /\
  ((lat <= lat_min)%Q -> lat_idx = 360%Z) /\
  ((lon <= lon_min)%Q -> lon_idx = 0%Z) /\
  ((lon_max <= lon)%Q -> lon_idx = 576%Z).
Proof.
  unfold _latlon_to_merra_index. cbv zeta.
  pose proof (clamp_cases lat_min lat_max lat ltac:(discriminate)) as Hlat.
  pose proof (clamp_cases lon_min lon_max lon ltac:(discriminate)) as Hlon.
  pose proof (clamp_range lat_min lat_max lat ltac:(discriminate)) as [Hlat1 Hlat2].
  pose proof (clamp_range lon_min lon_max lon ltac:(discriminate)) as [Hlon1 Hlon2].
  unfold lat_min, lat_max, lon_min, lon_max, lat_res, lon_res in *.
  split; [split; apply py_int_range |].
  - apply Qle_shift_div_l; [reflexivity | Lqa.lra].
  - apply Qle_shift_div_r; [reflexivity |]. unfold inject_Z. Lqa.lra.
  - apply Qle_shift_div_l; [reflexivity | Lqa.lra].
  - apply Qle_shift_div_r; [reflexivity |]. unfold inject_Z. Lqa.lra.
  - repeat split; intros H; apply py_int_of_integer; try lia.
    + destruct Hlat as [[H1 ->] | [[H1 ->] | [H1 ->]]]; try (exfalso; Lqa.lra);
        [setoid_replace lat with 90%Q by Lqa.lra |]; reflexivity.
    + destruct Hlat as [[H1 ->] | [[H1 ->] | [H1 ->]]]; try (exfalso; Lqa.lra);
        [| setoid_replace lat with (-90)%Q by Lqa.lra]; reflexivity.
    + destruct Hlon as [[H1 ->] | [[H1 ->] | [H1 ->]]]; try (exfalso; Lqa.lra);
        [| setoid_replace lon with (-180)%Q by Lqa.lra]; reflexivity.
    + destruct Hlon as [[H1 ->] | [[H1 ->] | [H1 ->]]]; try (exfalso; Lqa.lra);
        [setoid_replace lon with 180%Q by Lqa.lra |]; reflexivity.
Qed.



(** X11.  The indices are monotone: a point further north never has a larger
    row index, a point further east never a smaller column index. *)
Theorem merra_index_monotone (lat1 lat2 lon1 lon2 : Q) :
  (lat1 <= lat2)%Q -> (lon1 <= lon2)%Q ->
  (fst (_latlon_to_merra_index lat2 lon2) <= fst (_latlon_to_merra_index lat1 lon1))%Z /\
  (snd (_latlon_to_merra_index lat1 lon1) <= snd (_latlon_to_merra_index lat2 lon2))%Z.
Proof.
  intros Hlat Hlon. unfold _latlon_to_merra_index. cbv zeta. cbn [fst snd].
  assert (Hclat : (py_max (py_min lat1 lat_max) lat_min
                   <= py_max (py_min lat2 lat_max) lat_min)%Q).
  { pose proof (clamp_cases lat_min lat_max lat1 ltac:(discriminate)) as H1.
    pose proof (clamp_cases lat_min lat_max lat2 ltac:(discriminate)) as H2.
    unfold lat_min, lat_max in *.
    destruct H1 as [[H1 ->] | [[H1 ->] | [H1 ->]]];
      destruct H2 as [[H2 ->] | [[H2 ->] | [H2 ->]]]; Lqa.lra. }
  assert (Hclon : (py_max (py_min lon1 lon_max) lon_min
                   <= py_max (py_min lon2 lon_max) lon_min)%Q).
  { pose proof (clamp_cases lon_min lon_max lon1 ltac:(discriminate)) as H1.
    pose proof (clamp_cases lon_min lon_max lon2 ltac:(discriminate)) as H2.
    unfold lon_min, lon_max in *.
    destruct H1 as [[H1 ->] | [[H1 ->] | [H1 ->]]];
      destruct H2 as [[H2 ->] | [[H2 ->] | [H2 ->]]]; Lqa.lra. }
  pose proof (clamp_range lat_min lat_max lat1 ltac:(discriminate)) as [A1 A2].
  pose proof (clamp_range lat_min lat_max lat2 ltac:(discriminate)) as [B1 B2].
  pose proof (clamp_range lon_min lon_max lon1 ltac:(discriminate)) as [C1 C2].
  pose proof (clamp_range lon_min lon_max lon2 ltac:(discriminate)) as [D1 D2].
  set (a1 := py_max (py_min lat1 lat_max) lat_min) in *.
  set (a2 := py_max (py_min lat2 lat_max) lat_min) in *.
  set (b1 := py_max (py_min lon1 lon_max) lon_min) in *.
  set (b2 := py_max (py_min lon2 lon_max) lon_min) in *.
  unfold lat_min, lat_max, lon_min, lon_max, lat_res, lon_res in *.
  split; apply py_int_monotone.
  - apply Qle_shift_div_l; [reflexivity | Lqa.lra].
  - apply Qmult_le_compat_r; [Lqa.lra | discriminate].
  - apply Qle_shift_div_l; [reflexivity | Lqa.lra].
  - apply Qmult_le_compat_r; [Lqa.lra | discriminate].
Qed.

Lemma merra_index_monotone_witness :
  (10 <= 40.7)%Q /\ (-74.0 <= 12.5)%Q /\
  (fst (_latlon_to_merra_index 40.7 12.5) <= fst (_latlon_to_merra_index 10 (-74.0)))%Z /\
  (snd (_latlon_to_merra_index 10 (-74.0)) <= snd (_latlon_to_merra_index 40.7 12.5))%Z.
Proof.
  split; [discriminate |]. split; [discriminate |].
  apply (merra_index_monotone 10 40.7 (-74.0) 12.5); discriminate.
Defined.

(* ================================================================== *)
(** * The deterministic variation and the constructor *)

(** X12.  For a scale that is not negative the deterministic variation lies
    between [-scale] and [0.9998 * scale], whatever the hash, and it is one
    of the 10000 values [(k - 5000) / 5000 * scale]. *)
Theorem deterministic_variation_range
    (input_str : Q -> Q -> Datetime.t -> string -> string)
    (sha256_int : string -> Z)
    (lat lon : Q) (dt : Datetime.t) (param : string) (scale : Q) :
  (0 <= scale)%Q ->
  let v := generate_deterministic_variation input_str sha256_int lat lon dt param scale in
  (- scale <= v /\ v <= 0.9998 * scale)%Q /\
  exists k : Z, (0 <= k < 10000)%Z /\ (v == (inject_Z k - 5000) / 5000 * scale)%Q.
Proof.
  intros Hscale. unfold generate_deterministic_variation. cbv zeta.
  pose proof (Z.mod_pos_bound (sha256_int (input_str lat lon dt param)) 10000
                ltac:(lia)) as Hk.
  set (k := (sha256_int (input_str lat lon dt param) mod 10000)%Z) in *.
  assert (Hk0 : (0 <= inject_Z k)%Q) by (unfold Qle; cbn; lia).
  assert (Hk1 : (inject_Z k <= 9999)%Q) by (unfold Qle; cbn; lia).
  assert (Hn : (inject_Z k / 10000.0 * 2 - 1 == (inject_Z k - 5000) / 5000)%Q)
    by field.
  split.
  - rewrite Hn.
    assert (Hlo : (-1 <= (inject_Z k - 5000) / 5000)%Q).
    { apply Qle_shift_div_l; [reflexivity | Lqa.lra]. }
    assert (Hhi : ((inject_Z k - 5000) / 5000 <= 0.9998)%Q).
    { apply Qle_shift_div_r; [reflexivity | Lqa.lra]. }
    set (n := ((inject_Z k - 5000) / 5000)%Q) in *.
    split; Lqa.nra.
  - exists k. split; [exact Hk |]. rewrite Hn. reflexivity.
Qed.

Lemma deterministic_variation_range_witness :
  (0 <= 0.3)%Q /\
  (- 0.3 <= generate_deterministic_variation
              (fun _ _ _ param => param) (fun _ => 123456789%Z)
              40.7 (-74.0) june_afternoon "temperature" 0.3
   /\ generate_deterministic_variation
        (fun _ _ _ param => param) (fun _ => 123456789%Z)
        40.7 (-74.0) june_afternoon "temperature" 0.3 <= 0.9998 * 0.3)%Q.
Proof.
  split; [discriminate |].
  apply (deterministic_variation_range
           (fun _ _ _ param => param) (fun _ => 123456789%Z)
           40.7 (-74.0) june_afternoon "temperature" 0.3).
  discriminate.
Defined.

(** X13.  The constructor succeeds exactly when the model loads and answers
    the self-test with an output of shape (1, 128, 128, 2).  Every failure is
    a [RuntimeError]: "Model file not found at <path>" when loading raised
    [FileNotFoundError], "Initialization failed: <text>" when loading raised
    something else, and the doubly wrapped
    "Initialization failed: Model validation failed: <text>" when the
    self-test raised or returned another shape. *)
Theorem init_succeeds_iff (load_model : string -> LoadOutcome) (model_path : string) :
  (__init__ load_model model_path = inr tt <->
   load_model model_path = Loaded (Returns [1; 128; 128; 2]%Z)) /\
  (forall msg, __init__ load_model model_path = inl msg ->
     (exists m, load_model model_path = LoadFileNotFound m /\
                msg = ("Model file not found at " ++ model_path)%string) \/
     (exists e, load_model model_path = LoadRaises e /\
                msg = ("Initialization failed: " ++ str e)%string) \/
     (exists e, load_model model_path = Loaded (Raises e) /\
                msg = ("Initialization failed: Model validation failed: " ++ str e)%string) \/
     (exists shape, load_model model_path = Loaded (Returns shape) /\
                shape <> [1; 128; 128; 2]%Z /\
                msg = "Initialization failed: Model validation failed: Model output shape mismatch"%string)).
Proof.
  unfold __init__, _validate_model, shape_eqb.
  destruct (load_model model_path) as [m | e | [shape | e]].
  - split; [split; discriminate |].
    intros msg H. inversion H. left. exists m. auto.
  - split; [split; discriminate |].
    intros msg H. inversion H. right; left. exists e. auto.
  - destruct (list_eq_dec Z.eq_dec shape [1; 128; 128; 2]%Z) as [-> | Hne]; cbn.
    + split; [split; reflexivity | discriminate].
    + split; [split; [discriminate | intros H; inversion H; contradiction] |].
      intros msg H. inversion H. right; right; right. exists shape. auto.
  - cbn. split; [split; discriminate |].
    intros msg H. inversion H. right; right; left. exists e. auto.
Qed.

(* ================================================================== *)
(** * Scaling laws and noise *)



Lemma exp_scale_between (base factor range_scale : R) :
  0 <= range_scale -> 0 <= factor <= 1 ->
  base + range_scale * exp (-3) <= exp_scale base factor range_scale
  <= base + range_scale.
Proof.
  intros Hr [Hf0 Hf1]. unfold exp_scale.
  assert (Hdiv : exp (3 * factor) / exp 3 = exp (3 * factor - 3)).
  { unfold Rminus. rewrite exp_plus, exp_Ropp. reflexivity. }
  rewrite Hdiv.
  assert (Hlo : exp (-3) <= exp (3 * factor - 3)).
  { destruct (Req_dec factor 0) as [-> | Hne].
    - replace (3 * 0 - 3) with (-3) by lra. lra.
    - apply Rlt_le, exp_increasing. lra. }
  assert (Hhi : exp (3 * factor - 3) <= 1).
  { rewrite <- exp_0. destruct (Req_dec factor 1) as [-> | Hne].
    - replace (3 * 1 - 3) with 0 by lra. lra.
    - apply Rlt_le, exp_increasing. lra. }
  split; nra.
Qed.

(** X15.  For a range that is not negative and a factor in [0, 1],
    [exp_scale] lies between [base + range_scale * exp(-3)] and
    [base + range_scale], reaches [base + range_scale] at factor 1, and never
    decreases when the factor grows. *)
Theorem exp_scale_range_and_monotone (base f1 f2 range_scale : R) :
  0 <= range_scale -> 0 <= f1 -> f1 <= f2 -> f2 <= 1 ->
  base + range_scale * exp (-3) <= exp_scale base f1 range_scale /\
  exp_scale base f1 range_scale <= exp_scale base f2 range_scale /\
  exp_scale base f2 range_scale <= base + range_scale /\
  exp_scale base 1 range_scale = base + range_scale.
Proof.
  intros Hr H0 Hf H1.
  pose proof (exp_scale_between base f1 range_scale Hr ltac:(lra)) as [Hlo _].
  pose proof (exp_scale_between base f2 range_scale Hr ltac:(lra)) as [_ Hhi].
  split; [exact Hlo |]. split; [| split; [exact Hhi |]].
  - unfold exp_scale.
    pose proof (exp_pos 3) as H3.
    assert (Hle : exp (3 * f1) <= exp (3 * f2)).
    { destruct (Req_dec f1 f2) as [-> | Hne]; [lra |].
      apply Rlt_le, exp_increasing. lra. }
    apply Rplus_le_compat_l, Rmult_le_compat_l; [exact Hr |].
    unfold Rdiv. apply Rmult_le_compat_r; [| exact Hle].
    apply Rlt_le, Rinv_0_lt_compat, H3.
  - unfold exp_scale. unfold Rdiv. rewrite Rmult_1_r, Rinv_r; [lra |].
    pose proof (exp_pos 3). lra.
Qed.

Lemma exp_scale_range_and_monotone_witness :
  0 <= 600 /\ 0 <= 0 /\ 0 <= 1 /\ 1 <= 1 /\
  exp_scale 410 0 600 <= exp_scale 410 1 600 /\
  exp_scale 410 1 600 = 410 + 600.
Proof.
  split; [lra |]. split; [lra |]. split; [lra |]. split; [lra |].
  pose proof (exp_scale_range_and_monotone 410 0 1 600
                ltac:(lra) ltac:(lra) ltac:(lra) ltac:(lra)) as [_ [H2 [_ H4]]].
  split; assumption.
Defined.

(** X16.  With [random.uniform] fed by a draw in [0,1] and a minimum noise
    that is not negative, [add_sensor_noise] moves the value by at most
    [max(abs(value) * relative_scale, absolute_min_noise)] and uses up
    exactly one draw of the generator. *)
Theorem add_sensor_noise_within_band
    (value relative_scale absolute_min_noise : R) (g : Rng) :
  0 <= absolute_min_noise -> unit_draws g ->
  let out := add_sensor_noise random_uniform value relative_scale
                              absolute_min_noise g in
  Rabs (fst out - value)
  <= Rmax (Rabs value * relative_scale) absolute_min_noise /\
  (forall n, snd out n = g (S n)).
Proof.
  intros Ham Hg.
  unfold add_sensor_noise, random_uniform, random_random, rand_bind, rand_ret.
  cbv zeta. cbn [fst snd].
  pose proof (Rmax_r (Rabs value * relative_scale) absolute_min_noise) as Hns.
  set (ns := Rmax (Rabs value * relative_scale) absolute_min_noise) in *.
  pose proof (Hg 0%nat) as H0.
  split; [| reflexivity].
  apply Rabs_le. split; nra.
Qed.

Lemma add_sensor_noise_within_band_witness :
  0 <= 0.1 /\ unit_draws Fixtures.rng_half /\
  Rabs (fst (add_sensor_noise random_uniform 20 0.01 0.1 Fixtures.rng_half) - 20)
  <= Rmax (Rabs 20 * 0.01) 0.1.
Proof.
  split; [lra |]. split; [exact unit_draws_half |].
  apply (add_sensor_noise_within_band 20 0.01 0.1 Fixtures.rng_half);
    [lra | exact unit_draws_half].
Defined.

(* ================================================================== *)
(** * Further properties of [predict] *)









(* ================================================================== *)
(** * Further properties of the adjustment and constraint passes *)

Lemma param_tables_total_witness :
  In "pollution_factor" ["temp_shift"; "humidity_shift"; "pollution_factor"] /\
  dict_lookup RegionType_eqb
    (dict_get String.eqb
       (dict_get String.eqb seasonal_params
          (Features.season (_datetime_to_features june_afternoon)) [])
       "pollution_factor" []) URBAN <> None.
Proof.
  assert (Hin : In "pollution_factor"
                   ["temp_shift"; "humidity_shift"; "pollution_factor"])
    by (right; right; left; reflexivity).
  split; [exact Hin |].
  apply (param_tables_total june_afternoon URBAN "pollution_factor" Hin).
Defined.

(** X22.  The constraint pass never raises.  It lowers both temperatures by
    the same amount, between 1.0 and 2.02 degrees, leaves humidity and gas
    resistance as they are, scales the pressure by [1 - 0.00006 * t], and
    multiplies CO2, VOC and the particulates by 1.1, 1.2 and 1.3 exactly for
    points classified URBAN, leaving them unchanged everywhere else. *)
Theorem physics_constraints_effect (values : Results.t) (lat lon : Q)
    (dt : Datetime.t) :
  exists r t,
    _apply_physics_constraints values lat lon dt = Returns r /\
    1.0 <= t <= 2.02 /\
    BME688.temperature (Results.BME688 r)
      = BME688.temperature (Results.BME688 values) - t /\
    Results.MCP9808_temperature r = Results.MCP9808_temperature values - t /\
    BME688.humidity (Results.BME688 r) = BME688.humidity (Results.BME688 values) /\
    BME688.gas_resistance (Results.BME688 r)
      = BME688.gas_resistance (Results.BME688 values) /\
    BME688.pressure (Results.BME688 r)
      = BME688.pressure (Results.BME688 values) * (1 - t * 0.00006) /\
    (_determine_region_type lat lon = URBAN ->
       Results.CO2_value r = Results.CO2_value values * 1.1 /\
       Results.VOC_value r = Results.VOC_value values * 1.2 /\
       Results.PM1_0_value r = Results.PM1_0_value values * 1.3 /\
       Results.PM2_5_value r = Results.PM2_5_value values * 1.3 /\
       Results.PM10_value r = Results.PM10_value values * 1.3) /\
    (_determine_region_type lat lon <> URBAN ->
       Results.CO2_value r = Results.CO2_value values /\
       Results.VOC_value r = Results.VOC_value values /\
       Results.PM1_0_value r = Results.PM1_0_value values /\
       Results.PM2_5_value r = Results.PM2_5_value values /\
       Results.PM10_value r = Results.PM10_value values).
Proof.
  exists (physics_constrained values lat lon),
         (elevation_factor_of (_get_elevation lat lon) * 2.0).
  split; [apply physics_constraints_returns |].
  pose proof (elevation_factor_range lat lon) as Hef.
  unfold physics_constrained. cbv zeta.
  cbn [Results.BME688 BME688.temperature BME688.humidity BME688.pressure
       BME688.gas_resistance Results.MCP9808_temperature Results.CO2_value
       Results.VOC_value Results.PM1_0_value Results.PM2_5_value
       Results.PM10_value].
  split; [lra |]. do 4 (split; [reflexivity |]).
  split; [f_equal; lra |].
  split; intros Hregion.
  - rewrite Hregion. change (RegionType_eqb URBAN URBAN) with true. cbv iota.
    unfold Q2R. simpl. repeat split; lra.
  - destruct (RegionType_eqb_spec (_determine_region_type lat lon) URBAN) as [E | E];
      [contradiction |].
    unfold Q2R. simpl. repeat split; lra.
Qed.

(** The product of the two pollution factors of a region, read from the
    tables. *)
Lemma pollution_factor_range (dt : Datetime.t) (region_type : RegionType) :
  let f := _datetime_to_features dt in
  0.9 <= param_get seasonal_params (Features.season f) "pollution_factor"
                   region_type 1.0%Q
         * param_get diurnal_params (Features.time_of_day f) "pollution_factor"
                     region_type 1.0%Q
      <= 2.24.
Proof.
  unfold _datetime_to_features. cbv zeta.
  cbn [Features.season Features.time_of_day].
  unfold param_get. rewrite <- Q2R_mult.
  replace 0.9 with (Q2R 0.9) by (unfold Q2R; simpl; lra).
  replace 2.24 with (Q2R 2.24) by (unfold Q2R; simpl; lra).
  repeat match goal with
  | |- context [if ?c then _ else _] => destruct c
  end;
  destruct region_type; split; apply Qle_Rle; vm_compute; discriminate.
Qed.

(** X23.  The temporal adjustment multiplies the pollution baselines by a
    factor that the tables keep within bounds: between 0.9 and 2.24 for CO2
    and PM1.0, between 0.99 and 2.688 for VOC, between 1.08 and 2.912 for
    PM2.5 and between 1.08 and 3.136 for PM10. *)
Theorem adjusted_pollutants_range (base_values : Values.t) (dt : Datetime.t)
    (region_type : RegionType) :
  0 <= Values.CO2 base_values -> 0 <= Values.VOC base_values ->
  0 <= Values.PM1_0 base_values -> 0 <= Values.PM2_5 base_values ->
  0 <= Values.PM10 base_values ->
  let a := _apply_temporal_adjustments base_values dt region_type in
  0.9 * Values.CO2 base_values <= Values.CO2 a <= 2.24 * Values.CO2 base_values /\
  0.9 * Values.PM1_0 base_values <= Values.PM1_0 a <= 2.24 * Values.PM1_0 base_values /\
  0.99 * Values.VOC base_values <= Values.VOC a <= 2.688 * Values.VOC base_values /\
  1.08 * Values.PM2_5 base_values <= Values.PM2_5 a <= 2.912 * Values.PM2_5 base_values /\
  1.08 * Values.PM10 base_values <= Values.PM10 a <= 3.136 * Values.PM10 base_values.
Proof.
  intros H1 H2 H3 H4 H5.
  pose proof (pollution_factor_range dt region_type) as Hpf. cbv zeta in Hpf.
  unfold _apply_temporal_adjustments. cbv zeta.
  cbn [Values.CO2 Values.VOC Values.PM1_0 Values.PM2_5 Values.PM10].
  set (pf := param_get seasonal_params _ "pollution_factor" region_type 1.0%Q
             * param_get diurnal_params _ "pollution_factor" region_type 1.0%Q) in *.
  destruct (RegionType_eqb region_type URBAN); repeat split; nra.
Qed.

Lemma adjusted_pollutants_range_witness :
  0 <= Values.CO2 (base_values_of URBAN) /\
  0.9 * Values.CO2 (base_values_of URBAN)
  <= Values.CO2 (_apply_temporal_adjustments (base_values_of URBAN) june_afternoon URBAN)
  <= 2.24 * Values.CO2 (base_values_of URBAN).
Proof.
  assert (Hpos : 0 <= Values.CO2 (base_values_of URBAN) /\
                 0 <= Values.VOC (base_values_of URBAN) /\
                 0 <= Values.PM1_0 (base_values_of URBAN) /\
                 0 <= Values.PM2_5 (base_values_of URBAN) /\
                 0 <= Values.PM10 (base_values_of URBAN)).
  { cbv [base_values_of dict_get dict_lookup regional_base_values RegionType_eqb
         RegionType_value Z.eqb Pos.eqb base_row Values.CO2 Values.VOC
         Values.PM1_0 Values.PM2_5 Values.PM10].
    unfold Q2R. cbn [Qnum Qden]. repeat split; lra. }
  destruct Hpos as [H1 [H2 [H3 [H4 H5]]]].
  split; [exact H1 |].
  apply (adjusted_pollutants_range (base_values_of URBAN) june_afternoon URBAN
           H1 H2 H3 H4 H5).
Defined.







(* ================================================================== *)
(** * The [/predict] endpoint *)

Section EndpointFacts.
Variable engine_predict : string -> Q -> Q -> option string -> Eng Prediction.
Variable float_of_string : string -> option Q.
Variable format_1f format_2f : R -> string.


(** X26.  A JSON object whose latitude or longitude is falsy is answered
    with status 400 "Missing required fields: latitude or longitude", and
    the engine is not called.  Falsy covers a missing or null field and also
    the number 0: a point on the equator or on the prime meridian is
    rejected. *)
Theorem endpoint_rejects_falsy_coordinates
    (date time : string) (fields : list (string * App.Json)) (g : Rng) :
  fields <> [] ->
  App.truthy (dict_get String.eqb fields "latitude" App.JNull) = false \/
  App.truthy (dict_get String.eqb fields "longitude" App.JNull) = false ->
  App.predict engine_predict float_of_string format_1f format_2f
              true date time (App.JObject fields) g
  = (Returns (App.mkResponse 400
                [("error", "Missing required fields: latitude or longitude")]), g).
Proof.
  intros Hne Hfalsy. unfold App.predict.
  destruct fields as [| f rest]; [congruence |].
  cbn [negb App.truthy]. cbv zeta.
  assert (Hand : App.truthy (dict_get String.eqb (f :: rest) "latitude" App.JNull)
                 && App.truthy (dict_get String.eqb (f :: rest) "longitude" App.JNull)
                 = false).
  { destruct Hfalsy as [-> | ->]; [reflexivity | apply andb_false_r]. }
  rewrite Hand. reflexivity.
Qed.

(** X27.  For a JSON object, a falsy body or a predictor that failed to
    load, the endpoint returns a response with status 200, 400 or 500
    whatever the engine and the conversions do, exceptions included; an
    unloaded predictor always gives 500 before the body is looked at.  For
    any other truthy body (a non-empty array, a string, a number) with a
    loaded predictor the call [data.get] raises outside the [try]. *)
Theorem endpoint_contains_exceptions
    (predictor_loaded : bool) (date time : string) (data : App.Json) (g : Rng) :
  let call := App.predict engine_predict float_of_string format_1f format_2f
                          predictor_loaded date time data g in
  ((exists fields, data = App.JObject fields) \/ App.truthy data = false
   \/ predictor_loaded = false ->
   exists response g',
     call = (Returns response, g') /\
     (App.status response = 200 \/ App.status response = 400
      \/ App.status response = 500)%Z /\
     (predictor_loaded = false -> App.status response = 500%Z /\ g' = g)) /\
  (predictor_loaded = true -> App.truthy data = true ->
   (forall fields, data <> App.JObject fields) ->
   exists e, call = (Raises e, g)).
Proof.
  cbv zeta. unfold App.predict. split.
  - intros Hdata.
    destruct predictor_loaded; cbn [negb].
    2: { eexists; eexists. split; [reflexivity |]. cbn. auto. }
    destruct (App.truthy data) eqn:Htruthy; cbn [negb].
    2: { eexists; eexists. split; [reflexivity |]. cbn.
         split; [auto | discriminate]. }
    destruct Hdata as [[fields ->] | [Hd | Hd]]; try discriminate.
    cbv zeta.
    destruct (negb _).
    { eexists; eexists. split; [reflexivity |]. cbn.
      split; [auto | discriminate]. }
    unfold try_except, bind, lift_outcome, ret.
    destruct (App.py_float float_of_string _) as [lat | e1].
    2: { destruct e1; eexists; eexists; (split; [reflexivity |]); cbn;
         (split; [auto | discriminate]). }
    destruct (App.py_float float_of_string _) as [lon | e2].
    2: { destruct e2; eexists; eexists; (split; [reflexivity |]); cbn;
         (split; [auto | discriminate]). }
    destruct (engine_predict date lat lon (Some time) g) as [[result | e3] g1].
    2: { destruct e3; eexists; eexists; (split; [reflexivity |]); cbn;
         (split; [auto | discriminate]). }
    destruct result; eexists; eexists; (split; [reflexivity |]); cbn;
      (split; [auto | discriminate]).
  - intros -> Htruthy Hobj. cbn [negb]. rewrite Htruthy. cbn [negb].
    destruct data; try (eexists; reflexivity).
    exfalso. eapply Hobj. reflexivity.
Qed.
End EndpointFacts.


Lemma endpoint_rejects_falsy_coordinates_witness :
  [("latitude", App.JNumber 0); ("longitude", App.JNumber 31.2)] <> [] /\
  App.truthy (dict_get String.eqb
                [("latitude", App.JNumber 0); ("longitude", App.JNumber 31.2)]
                "latitude" App.JNull) = false /\
  App.predict (predict Fixtures.strptime_fixed_width (Fixtures.constant_model 0 0)
                       random_uniform)
              (fun _ => None) (fun _ => "") (fun _ => "")
              true "20250615" "14:00"
              (App.JObject [("latitude", App.JNumber 0);
                            ("longitude", App.JNumber 31.2)])
              Fixtures.rng_half
  = (Returns (App.mkResponse 400
                [("error", "Missing required fields: latitude or longitude")]),
     Fixtures.rng_half).
Proof.
  split; [discriminate |]. split; [reflexivity |].
  apply (endpoint_rejects_falsy_coordinates
           (predict Fixtures.strptime_fixed_width (Fixtures.constant_model 0 0)
                    random_uniform)
           (fun _ => None) (fun _ => "") (fun _ => "")
           "20250615" "14:00"
           [("latitude", App.JNumber 0); ("longitude", App.JNumber 31.2)]
           Fixtures.rng_half).
  - discriminate.
  - left. reflexivity.
Defined.

